(** * lsst.verify: job metadata and measurement sets

    A shallow embedding of [lsst/verify/jobmetadata.py] (class [Metadata])
    and [lsst/verify/measurementset.py] (class [MeasurementSet]), and the
    properties of the metadata aggregation core that are checked on it.

    Python dictionaries keyed by strings are finite maps ([gmap]); the
    dictionary of a [MeasurementSet], whose iteration order fixes the order
    of the layers of the chained view, is an association list.  Python
    exceptions are the [Raise] results of [result]. *)

From Stdlib Require Import Ascii String DecimalString DecimalNat.
From stdpp Require Import base option list strings gmap.

Open Scope string_scope.

(** ** Exceptions and results *)

Inductive exn : Type :=
| KeyError
| TypeError
| AttributeError.

Inductive result (A : Type) : Type :=
| Ok (a : A)
| Raise (e : exn).

Arguments Ok {A} a.
Arguments Raise {A} e.

(** ** Python string operations used by the source *)

Module Str.

(** The class [\s] of [re] on a text pattern, among the characters of one
    byte: the space, [\t\n\r\f\v] (9 to 13) and the separators 28 to 31.
    (The properties below depend on the class only in that a letter, a
    digit, [_] and the separator are not blank.) *)
Definition isspace (c : ascii) : bool :=
  let n := nat_of_ascii c in
  Nat.eqb n 32 || (Nat.leb 9 n && Nat.leb n 13) || (Nat.leb 28 n && Nat.leb n 31).

Definition dot : ascii := "."%char.

(** [s.startswith(p)] *)
Fixpoint startswith (p s : string) : bool :=
  match p with
  | EmptyString => true
  | String a p' =>
      match s with
      | EmptyString => false
      | String b s' => Ascii.eqb a b && startswith p' s'
      end
  end.

(** [s.rstrip(c)] for a one-character set [c]: every trailing [c] goes. *)
Fixpoint rstrip (c : ascii) (s : string) : string :=
  match s with
  | EmptyString => EmptyString
  | String a s' =>
      match rstrip c s' with
      | EmptyString => if Ascii.eqb a c then EmptyString else String a EmptyString
      | r => String a r
      end
  end.

(** Whether a separator occurs in [s] before its first blank, that is in
    the run of [\S] characters at the start of [s]. *)
Fixpoint sep_in_run (s : string) : bool :=
  match s with
  | EmptyString => false
  | String c s' => negb (isspace c) && (Ascii.eqb dot c || sep_in_run s')
  end.

(** [c * n] *)
Fixpoint repeat (c : ascii) (n : nat) : string :=
  match n with
  | O => EmptyString
  | S n' => String c (repeat c n')
  end.

End Str.

(** ** Regular expressions: the fragment [_prefix_pattern] is written in

    A pattern is a sequence of items, each a one-character atom or a greedy
    [+] repetition of one.  [match_here] is the backtracking search of
    [re.match]: anchored at the start of the string, it tries the longest
    repetition first and gives way one character at a time, and returns the
    text of the first match found, which is [match.group(0)].  A capturing
    group does not change which text is matched. *)

Module Re.

Inductive atom : Type :=
| Lit (c : ascii)        (* an escaped literal, as in [\.] *)
| NonSpace.              (* [\S] *)

Inductive item : Type :=
| One (a : atom)         (* [a]  *)
| Plus (a : atom).       (* [a+] *)

Definition atom_matches (a : atom) (c : ascii) : bool :=
  match a with
  | Lit c' => Ascii.eqb c' c
  | NonSpace => negb (Str.isspace c)
  end.

Definition cons_match (c : ascii) (r : option string) : option string :=
  match r with
  | Some m => Some (String c m)
  | None => None
  end.

(** [a+] followed by the rest of the pattern [k]: one [a], then as many
    more as possible; when the longer attempt fails, the rest of the
    pattern is tried from here. *)
Fixpoint match_plus (a : atom) (k : string -> option string) (s : string)
  : option string :=
  match s with
  | EmptyString => None
  | String c s' =>
      if atom_matches a c then
        match match_plus a k s' with
        | Some m => Some (String c m)
        | None => cons_match c (k s')
        end
      else None
  end.

Fixpoint match_here (re : list item) : string -> option string :=
  match re with
  | [] => fun _ => Some EmptyString
  | One a :: re' => fun s =>
      match s with
      | EmptyString => None
      | String c s' =>
          if atom_matches a c then cons_match c (match_here re' s') else None
      end
  | Plus a :: re' => match_plus a (match_here re')
  end.

(** [pattern.match(s)], as the matched text. *)
Definition re_match (re : list item) (s : string) : option string :=
  match_here re s.

End Re.

(** ** Names, measurements and Python objects *)

(** Modelled from the spec: the class [Name] of [lsst/verify/naming.py].  A
    name is compared and hashed by its canonical string form, so a name is
    represented by that string: [Name(metric=key)] of a bare string is the
    name whose canonical form is [key], and [str(name)] gives it back. *)
Abbreviation Name := string (only parsing).

Module Name.

(** [s.split(sep)] *)
Fixpoint split (sep : ascii) (s : string) : list string :=
  match s with
  | EmptyString => [EmptyString]
  | String c s' =>
      if Ascii.eqb c sep then EmptyString :: split sep s'
      else match split sep s' with
           | w :: ws => String c w :: ws
           | [] => [String c EmptyString]
           end
  end.

(** Modelled from the spec: the flag [Name.is_metric].  A name identifies
    a metric when it has two dotted components. *)
Definition is_metric (n : Name) : bool :=
  match split Str.dot n with
  | [package; metric] =>
      negb (String.eqb package EmptyString) && negb (String.eqb metric EmptyString)
  | _ => false
  end.

End Name.

(** Modelled from the spec: the class [Measurement] of
    [lsst/verify/measurement.py], as far as the two source files use it: a
    Python object, known by its identity [meas_id], with a declared
    [metric_name].  Its annotation store [notes._data] is mutable and shared
    with the chained view of [Metadata], so it lives in a heap indexed by
    the identity (see [Metadata.state]). *)
Record Measurement : Type := {
  meas_id : nat;
  metric_name : Name
}.

Global Instance Measurement_eq_dec : EqDecision Measurement.
Proof. solve_decision. Defined.

(** The values handed to [MeasurementSet]: a [Measurement], or any other
    object, which may or may not have an attribute [metric_name]. *)
Inductive pyobject : Type :=
| PyMeasurement (m : Measurement)
| PyOther (metric_name_attr : option Name).

(** [value.metric_name] *)
Definition getattr_metric_name (value : pyobject) : result Name :=
  match value with
  | PyMeasurement m => Ok (metric_name m)
  | PyOther (Some n) => Ok n
  | PyOther None => Raise AttributeError
  end.

(** ** Insertion-ordered dictionaries

    The dictionary [MeasurementSet._items]: its iteration order is the order
    in which the annotation stores are layered by [Metadata]. *)

Module Dict.
Section dict.
Context {K V : Type} `{EqDecision K}.

(** [d[k]], [None] standing for the [KeyError] *)
Fixpoint get (k : K) (d : list (K * V)) : option V :=
  match d with
  | [] => None
  | (k', v) :: d' => if decide (k = k') then Some v else get k d'
  end.

(** [d[k] = v]: a present key keeps its place, a new one goes last *)
Fixpoint set (k : K) (v : V) (d : list (K * V)) : list (K * V) :=
  match d with
  | [] => [(k, v)]
  | (k', v') :: d' =>
      if decide (k = k') then (k', v) :: d' else (k', v') :: set k v d'
  end.

(** [del d[k]] on a present key *)
Fixpoint del (k : K) (d : list (K * V)) : list (K * V) :=
  match d with
  | [] => []
  | (k', v') :: d' =>
      if decide (k = k') then d' else (k', v') :: del k d'
  end.

Definition keys (d : list (K * V)) : list K := fst <$> d.
End dict.
End Dict.

(** ** [MeasurementSet] (measurementset.py) *)

Module MeasurementSet.

(** A set is its dictionary [_items]. *)
Abbreviation t := (list (Name * Measurement)) (only parsing).

Section insertion.
(** [Name.is_metric], a parameter of the operations that test it. *)
Variable is_metric : Name -> bool.

Definition __setitem__ (key : Name) (value : pyobject) (self : t) : result t :=
  if negb (is_metric key) then Raise KeyError
  else
    match value with
    | PyOther _ => Raise TypeError
    | PyMeasurement m =>
        if decide (key <> metric_name m) then Raise KeyError
        else Ok (Dict.set key m self)
    end.

(** [self[measurement.metric_name] = measurement] *)
Definition insert (measurement : pyobject) (self : t) : result t :=
  match getattr_metric_name measurement with
  | Raise e => Raise e
  | Ok name => __setitem__ name measurement self
  end.

(** [for measurement in measurements:
      self[measurement.metric_name] = measurement] *)
Fixpoint init_loop (measurements : list pyobject) (self : t) : result t :=
  match measurements with
  | [] => Ok self
  | measurement :: rest =>
      match insert measurement self with
      | Raise e => Raise e
      | Ok self' => init_loop rest self'
      end
  end.

(** [MeasurementSet(measurements)]; [None] is the default argument, and
    iterating over it is a [TypeError]. *)
Definition __init__ (measurements : option (list pyobject)) : result t :=
  match measurements with
  | None => Raise TypeError
  | Some l => init_loop l []
  end.
End insertion.

Definition __getitem__ (key : Name) (self : t) : result Measurement :=
  match Dict.get key self with
  | Some m => Ok m
  | None => Raise KeyError
  end.

Definition __len__ (self : t) : nat := length self.

Definition __contains__ (key : Name) (self : t) : bool :=
  bool_decide (is_Some (Dict.get key self)).

Definition __delitem__ (key : Name) (self : t) : result t :=
  match Dict.get key self with
  | Some _ => Ok (Dict.del key self)
  | None => Raise KeyError
  end.

Definition __iter__ (self : t) : list Name := Dict.keys self.

Definition items (self : t) : list (Name * Measurement) := self.

(** The invariant of the class: every measurement is stored under its own
    declared metric name. *)
Definition consistent (self : t) : Prop :=
  forall key m, (key, m) ∈ self -> metric_name m = key.

(** What holds of [_items] in every set: a dictionary has no key twice,
    every key is a metric name, and every measurement is stored under its
    own declared metric name. *)
Definition well_formed (is_metric : Name -> bool) (self : t) : Prop :=
  NoDup (Dict.keys self) /\
  consistent self /\
  forall key, key ∈ Dict.keys self -> is_metric key = true.

(** ['{count:d}'.format(count=count)] *)
Definition format_d (count : nat) : string :=
  NilEmpty.string_of_uint (Nat.to_uint count).

Definition __str__ (self : t) : string :=
  let count := __len__ self in
  let count_str :=
    if Nat.eqb count 0 then "empty"
    else if Nat.eqb count 1 then "1 Measurement"
    else format_d count ++ " Measurements" in
  "<MeasurementSet: " ++ count_str ++ ">".

End MeasurementSet.

(** ** [collections.ChainMap]

    The operations of the chained mapping the source relies on, over the
    list [maps] of its layers: a lookup searches the layers in order and
    the first one holding the key answers; the keys are the union of the
    layers' keys, and the length counts them. *)

Module ChainMap.
Section chainmap.
Context {V : Type}.

Fixpoint lookup (maps : list (gmap string V)) (key : string) : option V :=
  match maps with
  | [] => None
  | m :: maps' =>
      match m !! key with
      | Some v => Some v
      | None => lookup maps' key
      end
  end.

Definition __getitem__ (maps : list (gmap string V)) (key : string) : result V :=
  match lookup maps key with
  | Some v => Ok v
  | None => Raise KeyError
  end.

(** [any(key in m for m in self.maps)] *)
Definition __contains__ (maps : list (gmap string V)) (key : string) : bool :=
  existsb (fun m => bool_decide (is_Some (m !! key))) maps.

(** the set of keys of all the layers: [set().union] of [self.maps] *)
Definition keyset (maps : list (gmap string V)) : gset string :=
  ⋃ (dom <$> maps).

Definition __len__ (maps : list (gmap string V)) : nat :=
  size (keyset maps).

(** The keys, each once.  The layers are finite maps, which keep no
    insertion order, so the order of this list is not the order in which
    Python iterates; nothing below depends on it. *)
Definition __iter__ (maps : list (gmap string V)) : list string :=
  elements (keyset maps).

(** [Mapping.items]: the pairs [(key, self[key])] over the keys *)
Definition items (maps : list (gmap string V)) : list (string * V) :=
  omap (fun key => pair key <$> lookup maps key) (__iter__ maps).
End chainmap.
End ChainMap.

(** ** [MeasurementNotes]

    Modelled from the spec: the annotation store [Measurement.notes] of
    [lsst/verify/measurement.py], a mapping whose [get]/[set]/[delete] by
    string key prefix the key with the measurement's own metric name as
    needed; the entries themselves are in the dictionary [notes._data],
    kept in a heap indexed by the identity of the measurement. *)

Module MeasurementNotes.
Section notes.
Context {V : Type}.

Definition _prefix (m : Measurement) : string :=
  metric_name m ++ String Str.dot EmptyString.

Definition _format_key (m : Measurement) (key : string) : string :=
  if Str.startswith (_prefix m) key then key else _prefix m ++ key.

(** [m.notes._data] *)
Definition _data (heap : gmap nat (gmap string V)) (id : nat) : gmap string V :=
  default ∅ (heap !! id).

(** [m.notes[key] = value] *)
Definition __setitem__ (m : Measurement) (key : string) (value : V)
    (heap : gmap nat (gmap string V)) : gmap nat (gmap string V) :=
  <[meas_id m := <[_format_key m key := value]> (_data heap (meas_id m))]> heap.

(** [del m.notes[key]] *)
Definition __delitem__ (m : Measurement) (key : string)
    (heap : gmap nat (gmap string V)) : result (gmap nat (gmap string V)) :=
  match _data heap (meas_id m) !! _format_key m key with
  | Some _ =>
      Ok (<[meas_id m := delete (_format_key m key) (_data heap (meas_id m))]> heap)
  | None => Raise KeyError
  end.
End notes.
End MeasurementNotes.

(** ** [Metadata] (jobmetadata.py) *)

Module Metadata.

(** Pattern for detecting metric name prefixes in names:
    [re.compile('^(\S+\.\S+)\.')]. *)
Definition _prefix_pattern : list Re.item :=
  [Re.Plus Re.NonSpace; Re.One (Re.Lit Str.dot);
   Re.Plus Re.NonSpace; Re.One (Re.Lit Str.dot)].

Definition _get_prefix (key : string) : option string :=
  Re.re_match _prefix_pattern key.

Section metadata.
Context {V : Type} `{EqDecision V}.

(** A [Metadata] object together with what it refers to: the bound
    [MeasurementSet] (a reference: the set changes behind the back of
    the object) and the heap of annotation stores.  [_chain] lists the
    layers that follow [self._data] in [self._chain.maps], each a
    reference to the [notes._data] of a measurement, named by the
    identity of that measurement; the first layer of the chain is
    always [self._data] itself. *)
Record state : Type := {
  heap : gmap nat (gmap string V);
  _meas_set : list (Name * Measurement);
  _data : gmap string V;
  _chain : list nat;
  _cached_prefixes : gset string
}.

(** [self._chain.maps] *)
Definition maps (self : state) : list (gmap string V) :=
  _data self :: (MeasurementNotes._data (heap self) <$> _chain self).

Definition _refresh_chainmap (self : state) : state :=
  let prefixes : gset string :=
    list_to_set (MeasurementSet.__iter__ (_meas_set self)) in
  if decide (_cached_prefixes self <> prefixes) then
    {| heap := heap self;
       _meas_set := _meas_set self;
       _data := _data self;
       _chain := (fun item => meas_id item.2) <$> MeasurementSet.items (_meas_set self);
       _cached_prefixes := prefixes |}
  else self.

Definition __getitem__ (key : string) (self : state) : result V * state :=
  let self := _refresh_chainmap self in
  (ChainMap.__getitem__ (maps self) key, self).

(** The routing decision that opens [__setitem__] and [__delitem__]:
    [prefix = Metadata._get_prefix(key)], and when there is one,
    [metric_name = prefix.rstrip('.')]; when [metric_name in self._meas_set]
    the call goes to [self._meas_set[metric_name]], and to the general
    metadata otherwise. *)
Definition route (key : string) (self : state) : option Measurement :=
  match _get_prefix key with
  | Some prefix =>
      let metric_name := Str.rstrip Str.dot prefix in
      if MeasurementSet.__contains__ metric_name (_meas_set self) then
        Dict.get metric_name (_meas_set self)
      else None
  | None => None
  end.

Definition __setitem__ (key : string) (value : V) (self : state) : state :=
  match route key self with
  | Some measurement =>
      {| heap := MeasurementNotes.__setitem__ measurement key value (heap self);
         _meas_set := _meas_set self;
         _data := _data self;
         _chain := _chain self;
         _cached_prefixes := _cached_prefixes self |}
  | None =>
      (* No matching measurement; insert into general metadata *)
      {| heap := heap self;
         _meas_set := _meas_set self;
         _data := <[key := value]> (_data self);
         _chain := _chain self;
         _cached_prefixes := _cached_prefixes self |}
  end.

Definition __delitem__ (key : string) (self : state) : result unit * state :=
  match route key self with
  | Some measurement =>
      match MeasurementNotes.__delitem__ measurement key (heap self) with
      | Ok heap' =>
          (Ok tt,
           {| heap := heap';
              _meas_set := _meas_set self;
              _data := _data self;
              _chain := _chain self;
              _cached_prefixes := _cached_prefixes self |})
      | Raise e => (Raise e, self)
      end
  | None =>
      (* No matching measurement; delete from general metadata *)
      match _data self !! key with
      | Some _ =>
          (Ok tt,
           {| heap := heap self;
              _meas_set := _meas_set self;
              _data := delete key (_data self);
              _chain := _chain self;
              _cached_prefixes := _cached_prefixes self |})
      | None => (Raise KeyError, self)
      end
  end.

Definition __contains__ (key : string) (self : state) : bool * state :=
  let self := _refresh_chainmap self in
  (ChainMap.__contains__ (maps self) key, self).

Definition __len__ (self : state) : nat * state :=
  let self := _refresh_chainmap self in
  (ChainMap.__len__ (maps self), self).

Definition __iter__ (self : state) : list string * state :=
  let self := _refresh_chainmap self in
  (ChainMap.__iter__ (maps self), self).

Definition keys (self : state) : list string * state := __iter__ self.

Definition items (self : state) : list (string * V) * state :=
  let self := _refresh_chainmap self in
  (ChainMap.items (maps self), self).

(** [for key, value in data.items(): self[key] = value] *)
Definition update (data : list (string * V)) (self : state) : state :=
  foldl (fun self item => __setitem__ item.1 item.2 self) self data.

(** [Metadata(measurement_set, data)], in a heap of annotation stores *)
Definition __init__ (heap0 : gmap nat (gmap string V))
    (measurement_set : list (Name * Measurement))
    (data : option (list (string * V))) : state :=
  let self := _refresh_chainmap
    {| heap := heap0;
       _meas_set := measurement_set;
       _data := ∅;
       _chain := [];
       _cached_prefixes := ∅ |} in
  match data with
  | Some d => update d self
  | None => self
  end.

(** The loop of [__eq__] over [other.items()].  The comparison
    [value != self[key]] is taken as the negation of a decidable equality
    of the values; a value that differs from itself, as a float NaN does,
    is outside this model. *)
Fixpoint eq_loop (its : list (string * V)) (self : state) : result bool * state :=
  match its with
  | [] => (Ok true, self)
  | (key, value) :: its' =>
      let '(present, self) := __contains__ key self in
      if negb present then (Ok false, self)
      else
        let '(r, self) := __getitem__ key self in
        match r with
        | Raise e => (Raise e, self)
        | Ok value' =>
            if decide (value <> value') then (Ok false, self)
            else eq_loop its' self
        end
  end.

Definition __eq__ (self other : state) : result bool * state * state :=
  let '(n, self) := __len__ self in
  let '(n', other) := __len__ other in
  if decide (n <> n') then (Ok false, self, other)
  else
    let '(its, other) := items other in
    let '(r, self) := eq_loop its self in
    (r, self, other).

Definition __ne__ (self other : state) : result bool * state * state :=
  let '(r, self, other) := __eq__ self other in
  (match r with Ok b => Ok (negb b) | Raise e => Raise e end, self, other).

(** What the owner of the bound set does to it between two calls. *)
Definition with_meas_set (ms : list (Name * Measurement)) (self : state) : state :=
  {| heap := heap self;
     _meas_set := ms;
     _data := _data self;
     _chain := _chain self;
     _cached_prefixes := _cached_prefixes self |}.

(** The layers a rebuilt view has: the general store, then the
    annotation store of every measurement now in the bound set, in the
    iteration order of the set. *)
Definition layers (self : state) : list (gmap string V) :=
  _data self ::
  ((fun item => MeasurementNotes._data (heap self) (meas_id item.2))
     <$> MeasurementSet.items (_meas_set self)).

(** The cached view is not stale: when the cached set of names is the
    set of names of the bound set, so that no rebuild will happen, the
    chain holds the annotation stores of the measurements of the set. *)
Definition view_current (self : state) : Prop :=
  _cached_prefixes self = list_to_set (MeasurementSet.__iter__ (_meas_set self)) ->
  _chain self = (fun item => meas_id item.2) <$> MeasurementSet.items (_meas_set self).

(** No key is held by two layers. *)
Definition layers_disjoint (self : state) : Prop :=
  forall i j (mi mj : gmap string V),
    i <> j -> layers self !! i = Some mi -> layers self !! j = Some mj ->
    mi ##ₘ mj.

End metadata.

Arguments state V : clear implicits.

End Metadata.

(** ** [Configuration] (bin/dispatchverify.py)

    The configuration of [dispatch_verify.py], which reconciles the command
    line with the environment.  The operating system is a parameter: the
    environment ([os.getenv]), [os.path.abspath] and [os.path.isdir]. *)

Module Dispatch.

(** The errors of [Configuration.__init__]: the [RuntimeError]s it raises
    itself, with their messages, and the error of a built-in it calls. *)
Inductive error : Type :=
| RuntimeError (message : string)
| Builtin (e : exn).

Inductive outcome (A : Type) : Type :=
| Returns (a : A)
| Raises (e : error).

Arguments Returns {A} a.
Arguments Raises {A} e.

(** The truth value of an optional string: [None] and the empty string are
    false. *)
Definition truthy (x : option string) : bool :=
  match x with
  | Some s => negb (String.eqb s EmptyString)
  | None => false
  end.

(** [x or y] *)
Definition py_or (x y : option string) : option string :=
  if truthy x then x else y.

(** The parsed command line, the [argparse.Namespace] of [parse_args]; an
    option that was not given is [None]. *)
Module Namespace.
Record t : Type := {
  json_paths : list string;
  test : bool;
  output_filepath : option string;
  show_json : bool;
  env_name : option string;
  lsstsw : option string;
  extra_package_paths : option (list string);
  ignore_lsstsw : bool;
  api_url : option string;
  api_user : option string;
  api_password : option string
}.
End Namespace.

Module Configuration.

Record t : Type := {
  json_paths : list string;
  test : bool;
  output_filepath : option string;
  show_json : bool;
  env_name : option string;
  ignore_lsstsw : bool;
  lsstsw : option string;
  extra_package_paths : list string;
  api_url : option string;
  api_user : option string;
  api_password : option string
}.

Definition allowed_env : list string := ["jenkins"].

Definition default_url : string := "https://squash.lsst.codes/dashboard/api".

Section os.
Variable getenv : string -> option string.
Variable abspath : string -> string.
Variable isdir : string -> bool.

(** [os.getenv(name, default)] *)
Definition getenv_default (name default : string) : option string :=
  match getenv name with
  | Some v => Some v
  | None => Some default
  end.

(** [os.path.isdir(path)]; the path [None] is a [TypeError]. *)
Definition isdir_opt (path : option string) : outcome bool :=
  match path with
  | Some p => Returns (isdir p)
  | None => Raises (Builtin TypeError)
  end.

(** [not self.ignore_lsstsw and not os.path.isdir(self.lsstsw)]; the
    directory is looked at only when [ignore_lsstsw] is false. *)
Definition lsstsw_missing (ignore : bool) (path : option string) : outcome bool :=
  if negb ignore then
    match isdir_opt path with
    | Returns d => Returns (negb d)
    | Raises e => Raises e
    end
  else Returns false.

(** The settings as [__init__] reconciles them: the command line first,
    the environment when the command line is silent. *)
Definition resolve_env_name (args : Namespace.t) : option string :=
  py_or (Namespace.env_name args) (getenv "VERIFY_ENV").

Definition resolve_lsstsw (args : Namespace.t) : option string :=
  match py_or (Namespace.lsstsw args) (getenv "LSSTSW") with
  | Some p => Some (abspath p)
  | None => None
  end.

Definition resolve_extra_package_paths (args : Namespace.t) : list string :=
  match Namespace.extra_package_paths args with
  | Some paths => abspath <$> paths
  | None => []
  end.

Definition resolve_api_url (args : Namespace.t) : option string :=
  py_or (Namespace.api_url args) (getenv_default "SQUASH_URL" default_url).

Definition resolve_api_user (args : Namespace.t) : option string :=
  py_or (Namespace.api_user args) (getenv "SQUASH_USER").

Definition resolve_api_password (args : Namespace.t) : option string :=
  py_or (Namespace.api_password args) (getenv "SQUASH_password").

(** The object that [__init__] leaves when no check fails. *)
Definition assemble (args : Namespace.t) : t :=
  {| json_paths := Namespace.json_paths args;
     test := Namespace.test args;
     output_filepath := Namespace.output_filepath args;
     show_json := Namespace.show_json args;
     env_name := resolve_env_name args;
     ignore_lsstsw := Namespace.ignore_lsstsw args;
     lsstsw := resolve_lsstsw args;
     extra_package_paths := resolve_extra_package_paths args;
     api_url := resolve_api_url args;
     api_user := resolve_api_user args;
     api_password := resolve_api_password args |}.

(** [self.env_name is not None and self.env_name not in self.allowed_env] *)
Definition env_name_invalid (env_name : option string) : bool :=
  match env_name with
  | Some name => negb (bool_decide (name ∈ allowed_env))
  | None => false
  end.

Definition __init__ (args : Namespace.t) : outcome t :=
  if env_name_invalid (resolve_env_name args)
  then Raises (RuntimeError "$VERIFY_ENV not one of ('jenkins',)")
  else
  match lsstsw_missing (Namespace.ignore_lsstsw args) (resolve_lsstsw args) with
  | Raises e => Raises e
  | Returns true =>
      Raises (RuntimeError
                ("lsstsw directory not found at "
                   ++ default "None" (resolve_lsstsw args)))
  | Returns false =>
  match List.find (fun path => negb (isdir path)) (resolve_extra_package_paths args) with
  | Some path => Raises (RuntimeError ("Package directory not found: " ++ path))
  | None =>
  if negb (Namespace.test args) && bool_decide (resolve_api_user args = None)
  then Raises (RuntimeError "--user or $SQUASH_USER configuration required")
  else
  if negb (Namespace.test args) && bool_decide (resolve_api_password args = None)
  then Raises (RuntimeError
                 "--password or $SQUASH_password configuration required")
  else Returns (assemble args)
  end
  end.
End os.

End Configuration.

End Dispatch.

(** ** Concrete measurements, sets and cores

    The states on which the properties below are exercised, each built by
    running the operations themselves. *)

Module Scenario.
Import Metadata.

Definition PA1 : Measurement :=
  {| meas_id := 0; metric_name := "validate_drp.PA1" |}.

(** another measurement of the same metric *)
Definition PA1' : Measurement :=
  {| meas_id := 1; metric_name := "validate_drp.PA1" |}.

Definition AM1 : Measurement :=
  {| meas_id := 2; metric_name := "validate_drp.AM1" |}.

(** a measurement whose declared name is not a metric name *)
Definition plain_note : Measurement :=
  {| meas_id := 3; metric_name := "note" |}.

(** The set a call returned, empty when it raised. *)
Definition returned (r : result (list (Name * Measurement)))
  : list (Name * Measurement) :=
  match r with
  | Ok ms => ms
  | Raise _ => []
  end.

(** [MeasurementSet([PA1])] *)
Definition set_PA1 : list (Name * Measurement) :=
  returned (MeasurementSet.__init__ Name.is_metric (Some [PyMeasurement PA1])).

(** *** A key held by two layers
    [meta = Metadata(MeasurementSet([]))], then
    [meta['validate_drp.PA1.note'] = 1] while the set is empty. *)
Definition general_only : state nat :=
  __setitem__ "validate_drp.PA1.note" 1 (__init__ ∅ [] None).

(** then [PA1] is inserted into the bound set *)
Definition general_then_PA1 : state nat :=
  with_meas_set
    (returned (MeasurementSet.insert Name.is_metric (PyMeasurement PA1)
                 (_meas_set general_only)))
    general_only.

(** and [meta['validate_drp.PA1.note'] = 2]. *)
Definition collision : state nat :=
  __setitem__ "validate_drp.PA1.note" 2 general_then_PA1.

(** *** A measurement replaced by another of the same metric
    [PA1.notes['note'] = 5], [PA1'.notes['filter'] = 7] and
    [PA1'.notes['camera'] = 8]. *)
Definition notes_heap : gmap nat (gmap string nat) :=
  MeasurementNotes.__setitem__ PA1' "camera" 8
    (MeasurementNotes.__setitem__ PA1' "filter" 7
       (MeasurementNotes.__setitem__ PA1 "note" 5 ∅)).

(** [meta = Metadata(MeasurementSet([PA1]))], read once with [len(meta)] *)
Definition bound_PA1 : state nat :=
  (__len__ (__init__ notes_heap set_PA1 None)).2.

(** then [del measurements['validate_drp.PA1']] and
    [measurements.insert(PA1')]. *)
Definition replaced : state nat :=
  with_meas_set
    (returned
       (MeasurementSet.insert Name.is_metric (PyMeasurement PA1')
          (returned (MeasurementSet.__delitem__ "validate_drp.PA1"
                       (_meas_set bound_PA1)))))
    bound_PA1.

(** *** The same entries in different layers
    one core holds [validate_drp.PA1.note = 5] in its general store, the
    set being empty; the other holds it in the annotation store of [PA1]. *)
Definition in_general_store : state nat :=
  __setitem__ "validate_drp.PA1.note" 5 (__init__ ∅ [] None).

Definition bound_empty_PA1 : state nat := __init__ ∅ set_PA1 None.

Definition in_annotation_store : state nat :=
  __setitem__ "validate_drp.PA1.note" 5 bound_empty_PA1.

(** and a general entry next to it: [meta['note'] = 3] *)
Definition two_layers : state nat :=
  __setitem__ "note" 3 in_annotation_store.

(** *** A command line and two environments
    [dispatch_verify.py job.json], with the lsstsw directory, the user and
    the password in the environment. *)
Definition args_plain : Dispatch.Namespace.t :=
  {| Dispatch.Namespace.json_paths := ["job.json"];
     Dispatch.Namespace.test := false;
     Dispatch.Namespace.output_filepath := None;
     Dispatch.Namespace.show_json := false;
     Dispatch.Namespace.env_name := None;
     Dispatch.Namespace.lsstsw := None;
     Dispatch.Namespace.extra_package_paths := None;
     Dispatch.Namespace.ignore_lsstsw := false;
     Dispatch.Namespace.api_url := None;
     Dispatch.Namespace.api_user := None;
     Dispatch.Namespace.api_password := None |}.

(** the same with every setting on the command line *)
Definition args_full : Dispatch.Namespace.t :=
  {| Dispatch.Namespace.json_paths := ["job.json"];
     Dispatch.Namespace.test := false;
     Dispatch.Namespace.output_filepath := None;
     Dispatch.Namespace.show_json := false;
     Dispatch.Namespace.env_name := Some "jenkins";
     Dispatch.Namespace.lsstsw := Some "/lsstsw";
     Dispatch.Namespace.extra_package_paths := Some ["/lsstsw"];
     Dispatch.Namespace.ignore_lsstsw := false;
     Dispatch.Namespace.api_url := Some "https://squash.example/api";
     Dispatch.Namespace.api_user := Some "ci";
     Dispatch.Namespace.api_password := Some "secret" |}.

Definition environment (name : string) : option string :=
  if String.eqb name "LSSTSW" then Some "/lsstsw"
  else if String.eqb name "SQUASH_USER" then Some "ci"
  else if String.eqb name "SQUASH_password" then Some "secret"
  else None.

Definition empty_environment (name : string) : option string := None.

(** with [$VERIFY_ENV] set to a name that is not allowed *)
Definition travis_environment (name : string) : option string :=
  if String.eqb name "VERIFY_ENV" then Some "travis" else environment name.

Definition same_path (path : string) : string := path.

Definition only_lsstsw (path : string) : bool := String.eqb path "/lsstsw".

End Scenario.

(** * Properties *)

(** ** Strings and the prefix pattern *)

Local Arguments String.append !_ _ / : simpl nomatch.

Lemma rstrip_snoc c s :
  Str.rstrip c (s ++ String c EmptyString) = Str.rstrip c s.
Proof.
  induction s as [|a s IH]; simpl.
  - by rewrite Ascii.eqb_refl.
  - by rewrite IH.
Qed.

Lemma rstrip_decompose c s :
  exists n, s = Str.rstrip c s ++ Str.repeat c n.
Proof.
  induction s as [|a s [n IH]]; simpl.
  - by exists 0.
  - destruct (Str.rstrip c s) as [|b r] eqn:E; simpl in IH.
    + destruct (Ascii.eqb_spec a c) as [->|Hne].
      * exists (S n). simpl. by rewrite <- IH.
      * exists n. simpl. by rewrite <- IH.
    + exists n. simpl. by rewrite <- IH.
Qed.

Lemma repeat_snoc c n :
  Str.repeat c n ++ String c EmptyString = String c (Str.repeat c n).
Proof. induction n as [|n IH]; simpl; [done | by rewrite IH]. Qed.

Lemma string_app_assoc (a b c : string) : (a ++ b) ++ c = a ++ (b ++ c).
Proof. induction a as [|x a IH]; simpl; [done | by rewrite IH]. Qed.

Lemma startswith_app p rest : Str.startswith p (p ++ rest) = true.
Proof.
  induction p as [|a p IH]; simpl; [done|].
  by rewrite Ascii.eqb_refl, IH.
Qed.

(** A text that ends with the separator starts with its stripped form
    followed by one separator. *)
Lemma rstrip_then_sep c p rest :
  exists rest',
    (p ++ String c EmptyString) ++ rest =
    (Str.rstrip c (p ++ String c EmptyString) ++ String c EmptyString) ++ rest'.
Proof.
  rewrite rstrip_snoc.
  destruct (rstrip_decompose c p) as [n Hn].
  exists (Str.repeat c n ++ rest).
  rewrite Hn at 1.
  rewrite !string_app_assoc. f_equal.
  rewrite <- !string_app_assoc. f_equal.
  by rewrite repeat_snoc.
Qed.

(** The search of [match_plus] keeps any property of the matched text that
    the rest of the pattern establishes and that consuming one more
    character keeps. *)
Lemma match_plus_shape a (k : string -> option string) (P : string -> string -> Prop) :
  (forall s m, k s = Some m -> P s m) ->
  (forall c s m, P s m -> P (String c s) (String c m)) ->
  forall s m, Re.match_plus a k s = Some m -> P s m.
Proof.
  intros Hk Hc. induction s as [|c s IH]; intros m; simpl; [done|].
  destruct (Re.atom_matches a c); [|done].
  destruct (Re.match_plus a k s) as [m1|] eqn:E.
  - intros [= <-]. apply Hc, IH. done.
  - destruct (k s) as [m2|] eqn:E2; simpl; [|done].
    intros [= <-]. apply Hc, Hk. done.
Qed.

Local Arguments Re.atom_matches : simpl never.

(** The matched text is a prefix of the subject. *)
Lemma match_here_prefix re :
  forall s m, Re.match_here re s = Some m -> exists rest, s = m ++ rest.
Proof.
  induction re as [|[a|a] re IH]; simpl.
  - intros s m [= <-]. by exists s.
  - intros [|c s] m; [done|].
    destruct (Re.atom_matches a c); [|done].
    destruct (Re.match_here re s) as [m1|] eqn:E; simpl; [|done].
    intros [= <-]. destruct (IH _ _ E) as [rest ->]. by exists rest.
  - apply match_plus_shape; [done|].
    intros c s m [rest ->]. by exists rest.
Qed.

(** A pattern that ends with a literal matches a text that ends with it. *)
Lemma match_here_last re c :
  forall s m, Re.match_here (re ++ [Re.One (Re.Lit c)])%list s = Some m ->
    exists p, m = p ++ String c EmptyString.
Proof.
  induction re as [|[a|a] re IH]; simpl.
  - intros [|c' s] m; [done|]. unfold Re.atom_matches.
    destruct (Ascii.eqb_spec c c') as [<-|]; [|done].
    intros [= <-]. by exists EmptyString.
  - intros [|c' s] m; [done|].
    destruct (Re.atom_matches a c'); [|done].
    destruct (Re.match_here _ s) as [m1|] eqn:E; simpl; [|done].
    intros [= <-]. destruct (IH _ _ E) as [p ->]. by exists (String c' p).
  - apply match_plus_shape; [done|].
    intros c' s m [p ->]. by exists (String c' p).
Qed.

(** A prefix found by [_get_prefix] is a prefix of the key and ends with
    the separator. *)
Lemma get_prefix_shape key prefix :
  Metadata._get_prefix key = Some prefix ->
  exists p rest, prefix = p ++ String Str.dot EmptyString /\ key = prefix ++ rest.
Proof.
  unfold Metadata._get_prefix, Re.re_match. intros H.
  destruct (match_here_prefix _ _ _ H) as [rest Hrest].
  change Metadata._prefix_pattern with
    ([Re.Plus Re.NonSpace; Re.One (Re.Lit Str.dot); Re.Plus Re.NonSpace]
       ++ [Re.One (Re.Lit Str.dot)])%list in H.
  destruct (match_here_last _ _ _ _ H) as [p Hp].
  by exists p, rest.
Qed.

(** The key starts with the metric name its prefix is stripped to, followed
    by one separator. *)
Lemma get_prefix_startswith key prefix :
  Metadata._get_prefix key = Some prefix ->
  Str.startswith (Str.rstrip Str.dot prefix ++ String Str.dot EmptyString) key = true.
Proof.
  intros (p & rest & -> & ->)%get_prefix_shape.
  destruct (rstrip_then_sep Str.dot p rest) as [rest' ->].
  apply startswith_app.
Qed.

(** *** The match is greedy *)

Section greedy.
(** [k] is the rest of a pattern that asks for one separator and nothing
    more, as [\.] at the end of [_prefix_pattern] does. *)
Variable k : string -> option string.
Hypothesis k_nil : k EmptyString = None.
Hypothesis k_sep : forall c s,
  k (String c s) = if Ascii.eqb Str.dot c then Some (String c EmptyString) else None.

(** When the search for [\S+\.] fails from a place and no separator stands
    there, no separator occurs before the next blank. *)
Lemma match_sep_None s :
  Re.match_plus Re.NonSpace k s = None -> k s = None -> Str.sep_in_run s = false.
Proof.
  induction s as [|c s IH]; [done|].
  rewrite k_sep. cbn [Re.match_plus Str.sep_in_run]. unfold Re.atom_matches.
  destruct (Str.isspace c); cbn [negb andb]; [done|].
  destruct (Re.match_plus _ _ s) as [m|] eqn:E1; [done|].
  destruct (Ascii.eqb Str.dot c); cbn [orb]; [done|].
  destruct (k s) as [m|] eqn:E2; [done|].
  intros _ _. by apply IH.
Qed.

(** The text matched by [\S+\.] runs up to the last separator before the
    first blank. *)
Lemma match_plus_sep_greedy s m :
  Re.match_plus Re.NonSpace k s = Some m ->
  exists rest, s = m ++ rest /\ Str.sep_in_run rest = false.
Proof.
  revert m. induction s as [|c s IH]; intros m; [done|].
  cbn [Re.match_plus]. destruct (Re.atom_matches Re.NonSpace c); [|done].
  destruct (Re.match_plus _ _ s) as [m1|] eqn:E1.
  - intros [= <-]. destruct (IH m1 eq_refl) as (rest & -> & Hrest). by exists rest.
  - destruct s as [|c' s']; [by rewrite k_nil|].
    rewrite k_sep. destruct (Ascii.eqb_spec Str.dot c') as [<-|]; [|done].
    intros [= <-]. exists s'. split; [done|].
    revert E1. cbn [Re.match_plus]. unfold Re.atom_matches.
    change (Str.isspace Str.dot) with false. cbn [negb].
    destruct (Re.match_plus _ _ s') as [m2|] eqn:E2; [done|].
    destruct (k s') as [m3|] eqn:E3; [done|].
    intros _. by apply match_sep_None.
Qed.
End greedy.

(** So does the prefix: what follows it in the key has no separator before
    its first blank, however many components the key has. *)
Lemma get_prefix_greedy key prefix :
  Metadata._get_prefix key = Some prefix ->
  exists rest, key = prefix ++ rest /\ Str.sep_in_run rest = false.
Proof.
  unfold Metadata._get_prefix, Re.re_match, Metadata._prefix_pattern.
  cbn [Re.match_here].
  apply (match_plus_shape _ _
           (fun s m => exists rest, s = m ++ rest /\ Str.sep_in_run rest = false)).
  - intros [|c s] m; [done|]. destruct (Re.atom_matches _ c); [|done].
    destruct (Re.match_plus _ _ s) as [m1|] eqn:E; [|done].
    intros [= <-].
    apply match_plus_sep_greedy in E as (rest & -> & Hrest); [by exists rest|done|].
    intros c' s'. unfold Re.atom_matches. by destruct (Ascii.eqb Str.dot c').
  - intros c s m (rest & -> & Hrest). by exists rest.
Qed.

(** The examples of the docstring of [_get_prefix]. *)
Example get_prefix_note : Metadata._get_prefix "note" = None.
Proof. reflexivity. Qed.

Example get_prefix_validate_drp :
  Metadata._get_prefix "validate_drp.PA1.note" = Some "validate_drp.PA1." /\
  Str.rstrip Str.dot "validate_drp.PA1." = "validate_drp.PA1".
Proof. split; reflexivity. Qed.

(** C1 (evaluation of the code where the claim fails).  On a key of four
    components the pattern takes every component but the last: the first
    repetition of [\S] also runs over dots, so the prefix of ["a.b.c.d"] is
    ["a.b.c."] and not the first two components ["a.b."]. *)
Theorem get_prefix_is_greedy :
  Metadata._get_prefix "a.b.c.d" = Some "a.b.c." /\
  Metadata._get_prefix "a.b.c.d" <> Some "a.b." /\
  Metadata._get_prefix "validate_drp.PA1.note.extra" = Some "validate_drp.PA1.note.".
Proof. split; [reflexivity | split; [discriminate | reflexivity]]. Qed.

(** What follows for the routing: with [validate_drp.PA1] in the bound set,
    a key of four components that starts with that metric name is not
    handed to the measurement but written to the general store. *)
Example four_components_not_routed :
  Metadata.route "validate_drp.PA1.note.extra" Scenario.bound_empty_PA1 = None /\
  Metadata.route "validate_drp.PA1.note" Scenario.bound_empty_PA1 = Some Scenario.PA1 /\
  Metadata._data
    (Metadata.__setitem__ "validate_drp.PA1.note.extra" 9 Scenario.bound_empty_PA1)
    !! "validate_drp.PA1.note.extra" = Some 9.
Proof. repeat split; vm_compute; reflexivity. Qed.

(** ** Insertion-ordered dictionaries *)

Section dict_facts.
Context {K V : Type} `{EqDecision K}.
Implicit Types (d : list (K * V)).

Lemma dict_get_set_eq k v d : Dict.get k (Dict.set k v d) = Some v.
Proof.
  induction d as [|[k' v'] d IH]; simpl.
  - by rewrite decide_True.
  - destruct (decide (k = k')) as [->|Hne]; simpl.
    + by rewrite decide_True.
    + by rewrite decide_False.
Qed.

Lemma dict_get_set_ne k k' v d :
  k <> k' -> Dict.get k' (Dict.set k v d) = Dict.get k' d.
Proof.
  intros Hne. induction d as [|[k1 v1] d IH]; simpl.
  - by rewrite decide_False.
  - destruct (decide (k = k1)) as [->|Hne1]; simpl.
    + by rewrite !decide_False.
    + by rewrite IH.
Qed.

Lemma dict_set_nonempty k v d : Dict.set k v d <> [].
Proof. destruct d as [|[k' v'] d]; simpl; [done|]. by destruct (decide _). Qed.

Lemma dict_get_elem_of k v d : Dict.get k d = Some v -> (k, v) ∈ d.
Proof.
  induction d as [|[k' v'] d IH]; simpl; [done|].
  destruct (decide (k = k')) as [->|Hne].
  - intros [= ->]. left.
  - intros H%IH. by right.
Qed.

Lemma dict_elem_of_set k v k' v' d :
  (k', v') ∈ Dict.set k v d -> (k' = k /\ v' = v) \/ (k', v') ∈ d.
Proof.
  induction d as [|[k1 v1] d IH]; simpl.
  - intros [= -> ->]%list_elem_of_singleton. by left.
  - destruct (decide (k = k1)) as [->|Hne].
    + intros [[= -> ->]|H]%elem_of_cons; [by left|]. right. by right.
    + intros [[= -> ->]|H]%elem_of_cons; [right; left|].
      destruct (IH H) as [?|?]; [by left|]. right. by right.
Qed.

Lemma dict_elem_of_del k k' v' d :
  (k', v') ∈ Dict.del k d -> (k', v') ∈ d.
Proof.
  induction d as [|[k1 v1] d IH]; simpl; [done|].
  destruct (decide (k = k1)) as [->|Hne].
  - by right.
  - intros [[= -> ->]|H]%elem_of_cons; [left|]. right. by apply IH.
Qed.
End dict_facts.

(** ** [MeasurementSet] *)

Section measurement_set_facts.
Variable is_metric : Name -> bool.

(** The invariant of the class is kept by every operation that changes
    the set. *)
Lemma setitem_consistent key value self self' :
  MeasurementSet.consistent self ->
  MeasurementSet.__setitem__ is_metric key value self = Ok self' ->
  MeasurementSet.consistent self'.
Proof.
  unfold MeasurementSet.__setitem__. intros Hc.
  destruct (is_metric key); simpl; [|done].
  destruct value as [m|]; [|done].
  destruct (decide (key <> metric_name m)) as [|Heq%dec_stable]; [done|].
  intros [= <-] k' m' [[-> ->]|Hin]%dict_elem_of_set; [done|].
  by apply Hc.
Qed.

Lemma delitem_consistent key self self' :
  MeasurementSet.consistent self ->
  MeasurementSet.__delitem__ key self = Ok self' ->
  MeasurementSet.consistent self'.
Proof.
  unfold MeasurementSet.__delitem__. intros Hc.
  destruct (Dict.get key self); [|done].
  intros [= <-] k' m' Hin%dict_elem_of_del. by apply Hc.
Qed.

Lemma insert_consistent measurement self self' :
  MeasurementSet.consistent self ->
  MeasurementSet.insert is_metric measurement self = Ok self' ->
  MeasurementSet.consistent self'.
Proof.
  unfold MeasurementSet.insert. intros Hc.
  destruct (getattr_metric_name measurement); [|done].
  by apply setitem_consistent.
Qed.

Lemma insert_nonempty measurement self self' :
  MeasurementSet.insert is_metric measurement self = Ok self' -> self' <> [].
Proof.
  unfold MeasurementSet.insert, MeasurementSet.__setitem__.
  destruct (getattr_metric_name measurement) as [name|]; [|done].
  destruct (is_metric name); simpl; [|done].
  destruct measurement as [m|]; [|done].
  destruct (decide _); [done|].
  intros [= <-]. apply dict_set_nonempty.
Qed.

Lemma init_loop_consistent measurements :
  forall self self',
    MeasurementSet.consistent self ->
    MeasurementSet.init_loop is_metric measurements self = Ok self' ->
    MeasurementSet.consistent self'.
Proof.
  induction measurements as [|o l IH]; simpl; intros self self' Hc.
  - by intros [= <-].
  - destruct (MeasurementSet.insert is_metric o self) as [s1|] eqn:E; [|done].
    apply IH. by eapply insert_consistent.
Qed.

Lemma init_loop_nonempty measurements :
  forall self self',
    self <> [] ->
    MeasurementSet.init_loop is_metric measurements self = Ok self' ->
    self' <> [].
Proof.
  induction measurements as [|o l IH]; simpl; intros self self' Hne.
  - by intros [= <-].
  - destruct (MeasurementSet.insert is_metric o self) as [s1|] eqn:E; [|done].
    apply IH. by eapply insert_nonempty.
Qed.

(** A list of measurements whose declared names are metric names is
    inserted one by one, each under its declared name. *)
Lemma init_loop_measurements (ms : list Measurement) :
  Forall (fun m => is_metric (metric_name m) = true) ms ->
  forall self,
    MeasurementSet.init_loop is_metric (PyMeasurement <$> ms) self =
    Ok (foldl (fun s m => Dict.set (metric_name m) m s) self ms).
Proof.
  induction 1 as [|m ms Hm _ IH]; intros self; simpl; [done|].
  unfold MeasurementSet.insert, MeasurementSet.__setitem__. simpl.
  rewrite Hm. simpl. rewrite decide_False by (intros Hne; by apply Hne).
  apply IH.
Qed.

Lemma foldl_set_get (ms : list Measurement) :
  forall self m,
    m ∈ ms ->
    exists m', Dict.get (metric_name m)
                 (foldl (fun s m => Dict.set (metric_name m) m s) self ms) = Some m'
               /\ metric_name m' = metric_name m.
Proof.
  induction ms as [|m0 ms IH] using rev_ind; intros self m Hin.
  - by apply elem_of_nil in Hin.
  - rewrite foldl_app. simpl.
    destruct (decide (metric_name m0 = metric_name m)) as [Heq|Hne].
    + exists m0. rewrite <- Heq. by rewrite dict_get_set_eq.
    + rewrite dict_get_set_ne by done.
      apply elem_of_app in Hin as [Hin|Hin%list_elem_of_singleton]; [|by subst].
      by apply IH.
Qed.

Lemma foldl_set_stored (ms : list Measurement) :
  forall self key m,
    Dict.get key (foldl (fun s m => Dict.set (metric_name m) m s) self ms) = Some m ->
    (m ∈ ms /\ key = metric_name m) \/ Dict.get key self = Some m.
Proof.
  induction ms as [|m0 ms IH] using rev_ind; intros self key m; simpl.
  - by right.
  - rewrite foldl_app. simpl.
    destruct (decide (metric_name m0 = key)) as [<-|Hne].
    + rewrite dict_get_set_eq. intros [= <-]. left. split; [|done].
      apply elem_of_app. right. by apply list_elem_of_singleton.
    + rewrite dict_get_set_ne by done. intros [[Hin ->]|H]%IH; [|by right].
      left. split; [|done]. apply elem_of_app. by left.
Qed.
(** A measurement whose declared name is not a metric name stops the
    loop with the key error of [__setitem__]. *)
Lemma init_loop_measurements_raise (ms : list Measurement) :
  Exists (fun m => is_metric (metric_name m) = false) ms ->
  forall self,
    MeasurementSet.init_loop is_metric (PyMeasurement <$> ms) self = Raise KeyError.
Proof.
  induction ms as [|m ms IH]; intros Hex self.
  - by apply Exists_nil in Hex.
  - rewrite fmap_cons. cbn [MeasurementSet.init_loop].
    unfold MeasurementSet.insert, MeasurementSet.__setitem__. cbn [getattr_metric_name].
    destruct (is_metric (metric_name m)) eqn:Em; cbn [negb]; [|done].
    rewrite decide_False by (intros Hne; by apply Hne).
    apply IH. apply Exists_cons in Hex as [Hm|Hex]; [congruence | done].
Qed.
End measurement_set_facts.

(** C8, as amended.  [MeasurementSet.__setitem__] tests the key first: a key
    that is not a metric name is a key error whatever the value; under a
    metric name, a value that is not a [Measurement] is a type error, and a
    [Measurement] whose declared metric name differs from the key is a key
    error; a successful call stores the measurement under its declared
    metric name.  [insert] of a measurement is [__setitem__] under the
    declared name of the measurement, and [insert] of another object that
    carries a metric name is a type error. *)
Theorem measurement_set_setitem_errors
    (is_metric : Name -> bool) (key : Name) (value : pyobject)
    (self : list (Name * Measurement)) :
  (is_metric key = false ->
   MeasurementSet.__setitem__ is_metric key value self = Raise KeyError) /\
  (is_metric key = true -> (forall m, value <> PyMeasurement m) ->
   MeasurementSet.__setitem__ is_metric key value self = Raise TypeError) /\
  (forall m, value = PyMeasurement m -> key <> metric_name m ->
   MeasurementSet.__setitem__ is_metric key value self = Raise KeyError) /\
  (forall self',
   MeasurementSet.__setitem__ is_metric key value self = Ok self' ->
   exists m, value = PyMeasurement m /\ key = metric_name m /\
             self' = Dict.set (metric_name m) m self /\
             Dict.get (metric_name m) self' = Some m) /\
  (forall m,
   MeasurementSet.insert is_metric (PyMeasurement m) self =
   MeasurementSet.__setitem__ is_metric (metric_name m) (PyMeasurement m) self) /\
  (forall name, is_metric name = true ->
   MeasurementSet.insert is_metric (PyOther (Some name)) self = Raise TypeError).
Proof.
  unfold MeasurementSet.insert, MeasurementSet.__setitem__.
  split; [|split; [|split; [|split; [|split]]]].
  - by intros ->.
  - intros -> Hv. simpl. destruct value as [m|]; [|done].
    by destruct (Hv m).
  - intros m -> Hne. destruct (is_metric key); simpl; [|done].
    by rewrite decide_True.
  - intros self'. destruct (is_metric key); simpl; [|done].
    destruct value as [m|]; [|done].
    destruct (decide (key <> metric_name m)) as [|Heq%dec_stable]; [done|].
    intros [= <-]. exists m. subst key.
    by rewrite dict_get_set_eq.
  - done.
  - intros name Hname. simpl. by rewrite Hname.
Qed.

(** The example of the spec: a measurement that declares
    [validate_drp.PA1], assigned under [validate_drp.PA2], is a key error;
    and the other cases, each at a concrete call. *)
Lemma measurement_set_setitem_errors_witness :
  MeasurementSet.__setitem__ Name.is_metric "validate_drp.PA2"
    (PyMeasurement Scenario.PA1) [] = Raise KeyError /\
  MeasurementSet.__setitem__ Name.is_metric "note"
    (PyMeasurement Scenario.PA1) [] = Raise KeyError /\
  MeasurementSet.__setitem__ Name.is_metric "validate_drp.PA1"
    (PyOther None) [] = Raise TypeError /\
  (exists m, PyMeasurement Scenario.PA1 = PyMeasurement m /\
             "validate_drp.PA1" = metric_name m /\
             [("validate_drp.PA1", Scenario.PA1)] = Dict.set (metric_name m) m [] /\
             Dict.get (metric_name m) [("validate_drp.PA1", Scenario.PA1)] = Some m).
Proof.
  split; [|split; [|split]].
  - apply (proj1 (proj2 (proj2 (measurement_set_setitem_errors
      Name.is_metric "validate_drp.PA2" (PyMeasurement Scenario.PA1) [])))
      Scenario.PA1); [reflexivity | discriminate].
  - apply (proj1 (measurement_set_setitem_errors
      Name.is_metric "note" (PyMeasurement Scenario.PA1) [])). reflexivity.
  - apply (proj1 (proj2 (measurement_set_setitem_errors
      Name.is_metric "validate_drp.PA1" (PyOther None) []))); [reflexivity | discriminate].
  - apply (proj1 (proj2 (proj2 (proj2 (measurement_set_setitem_errors
      Name.is_metric "validate_drp.PA1" (PyMeasurement Scenario.PA1) []))))).
    reflexivity.
Defined.

(** C8, as stated, fails for a value that is not a [Measurement] assigned
    under a key that is not a metric name: the key is tested first and the
    call raises a key error, not a type error. *)
Lemma setitem_key_error_before_type_error :
  Name.is_metric "note" = false /\
  (forall m, PyOther None <> PyMeasurement m) /\
  MeasurementSet.__setitem__ Name.is_metric "note" (PyOther None) [] = Raise KeyError /\
  MeasurementSet.__setitem__ Name.is_metric "note" (PyOther None) [] <> Raise TypeError.
Proof. repeat split; try reflexivity; discriminate. Qed.

(** C10, as amended.  Without a [measurements] argument the constructor
    raises a type error; a non-empty list of measurements whose declared
    names are metric names is inserted one measurement after the other,
    each under its own declared metric name, and gives a non-empty set; a
    list with a measurement whose declared name is not a metric name
    raises the key error of [__setitem__]; an empty set is constructed
    from the explicit empty list only. *)
Theorem measurement_set_init (is_metric : Name -> bool) :
  MeasurementSet.__init__ is_metric None = Raise TypeError /\
  (forall ms : list Measurement,
     ms <> [] ->
     Forall (fun m => is_metric (metric_name m) = true) ms ->
     exists self,
       MeasurementSet.__init__ is_metric (Some (PyMeasurement <$> ms)) = Ok self /\
       self = foldl (fun s m => Dict.set (metric_name m) m s) [] ms /\
       self <> [] /\
       (forall m, m ∈ ms ->
          exists m', Dict.get (metric_name m) self = Some m' /\
                     metric_name m' = metric_name m) /\
       (forall key m, Dict.get key self = Some m -> m ∈ ms /\ key = metric_name m)) /\
  (forall measurements,
     MeasurementSet.__init__ is_metric measurements = Ok [] <->
     measurements = Some []) /\
  (forall ms : list Measurement,
     Exists (fun m => is_metric (metric_name m) = false) ms ->
     MeasurementSet.__init__ is_metric (Some (PyMeasurement <$> ms)) = Raise KeyError).
Proof.
  split; [done|]. split; [|split; [|by intros ms Hex; apply init_loop_measurements_raise]].
  - intros ms Hne Hall. eexists. simpl.
    split; [by apply init_loop_measurements|]. split; [done|].
    split; [|split].
    + destruct ms as [|m ms _] using rev_ind; [done|].
      rewrite foldl_app. simpl. apply dict_set_nonempty.
    + intros m Hin. by apply foldl_set_get.
    + intros key m [?|?]%foldl_set_stored; done.
  - intros [[|o l]|]; simpl; split; try done.
    destruct (MeasurementSet.insert is_metric o []) as [s1|] eqn:E; [|done].
    intros H. exfalso.
    eapply init_loop_nonempty; [|exact H|done].
    by eapply insert_nonempty.
Qed.

Lemma measurement_set_init_witness :
  exists self,
    MeasurementSet.__init__ Name.is_metric
      (Some (PyMeasurement <$> [Scenario.PA1; Scenario.AM1])) = Ok self /\
    self = [("validate_drp.PA1", Scenario.PA1); ("validate_drp.AM1", Scenario.AM1)].
Proof.
  destruct (proj1 (proj2 (measurement_set_init Name.is_metric))
              [Scenario.PA1; Scenario.AM1]) as (self & Hinit & Hfold & _).
  - discriminate.
  - repeat constructor.
  - exists self. split; [exact Hinit | exact Hfold].
Defined.

(** C10, as stated, fails for a list that holds a measurement whose
    declared name is not a metric name: [__setitem__] rejects the key and
    the constructor raises a key error, with or without measurements of
    metric names before it. *)
Lemma init_non_metric_name_raises :
  Name.is_metric (metric_name Scenario.plain_note) = false /\
  MeasurementSet.__init__ Name.is_metric (Some [PyMeasurement Scenario.plain_note])
    = Raise KeyError /\
  MeasurementSet.__init__ Name.is_metric
    (Some [PyMeasurement Scenario.PA1; PyMeasurement Scenario.plain_note])
    = Raise KeyError.
Proof. split; [reflexivity | split; reflexivity]. Qed.

(** ** [ChainMap] *)

Section chainmap_facts.
Context {V : Type}.
Implicit Types (maps : list (gmap string V)) (key : string).

Lemma chainmap_lookup_cons (m : gmap string V) maps key :
  ChainMap.lookup (m :: maps) key =
  match m !! key with Some v => Some v | None => ChainMap.lookup maps key end.
Proof. done. Qed.

(** The first layer that holds the key answers. *)
Lemma chainmap_lookup_first l1 (m : gmap string V) l2 key v :
  (forall m', m' ∈ l1 -> m' !! key = None) ->
  m !! key = Some v ->
  ChainMap.lookup (l1 ++ m :: l2)%list key = Some v.
Proof.
  intros Hl1 Hm. induction l1 as [|m1 l1 IH]; simpl.
  - by rewrite Hm.
  - rewrite (Hl1 m1) by left. apply IH. intros m' Hin. apply Hl1. by right.
Qed.

Lemma chainmap_lookup_Some maps key v :
  ChainMap.lookup maps key = Some v ->
  exists l1 m l2, maps = (l1 ++ m :: l2)%list /\
                  (forall m', m' ∈ l1 -> m' !! key = None) /\ m !! key = Some v.
Proof.
  induction maps as [|m maps IH]; simpl; [done|].
  destruct (m !! key) as [v'|] eqn:E.
  - intros [= ->]. exists [], m, maps. split; [done|]. split; [|done].
    intros m' Hin. by apply elem_of_nil in Hin.
  - intros (l1 & m0 & l2 & -> & Hl1 & Hm0)%IH.
    exists (m :: l1), m0, l2. split; [done|]. split; [|done].
    intros m' [->|Hin]%elem_of_cons; [done|]. by apply Hl1.
Qed.

(** When the layers that hold the key agree on its value, that value is
    the answer. *)
Lemma chainmap_lookup_agree maps key v :
  (forall m, m ∈ maps -> m !! key = None \/ m !! key = Some v) ->
  (exists m, m ∈ maps /\ m !! key = Some v) ->
  ChainMap.lookup maps key = Some v.
Proof.
  induction maps as [|m maps IH]; simpl; intros Hall (m0 & Hin & Hm0).
  - by apply elem_of_nil in Hin.
  - destruct (Hall m) as [Hm|Hm]; [left| |]; rewrite Hm; [|done].
    apply IH.
    + intros m' Hin'. apply Hall. by right.
    + apply elem_of_cons in Hin as [->|Hin]; [congruence|]. by exists m0.
Qed.

Lemma chainmap_lookup_None maps key :
  ChainMap.lookup maps key = None <-> forall m, m ∈ maps -> m !! key = None.
Proof.
  induction maps as [|m maps IH]; simpl.
  - split; [|done]. intros _ m Hin. by apply elem_of_nil in Hin.
  - destruct (m !! key) as [v|] eqn:E.
    + split; [done|]. intros Hall. specialize (Hall m). rewrite E in Hall.
      apply Hall. left.
    + rewrite IH. split.
      * intros Hall m' [->|Hin]%elem_of_cons; [done|]. by apply Hall.
      * intros Hall m' Hin. apply Hall. by right.
Qed.

Lemma chainmap_keyset maps key :
  key ∈ ChainMap.keyset maps <-> is_Some (ChainMap.lookup maps key).
Proof.
  unfold ChainMap.keyset. induction maps as [|m maps IH]; simpl.
  - split; [by intros ?%elem_of_empty | by intros [? ?]].
  - rewrite elem_of_union, IH, elem_of_dom.
    destruct (m !! key) as [v|] eqn:E.
    + split; [by eexists | left; by eexists].
    + split; [intros [[? ?]|?]; done | by right].
Qed.

Lemma chainmap_contains maps key :
  ChainMap.__contains__ maps key = true <-> is_Some (ChainMap.lookup maps key).
Proof.
  unfold ChainMap.__contains__. induction maps as [|m maps IH]; simpl.
  - split; [done | by intros [? ?]].
  - rewrite orb_true_iff, IH, bool_decide_eq_true.
    destruct (m !! key) as [v|] eqn:E.
    + split; [by eexists | left; by eexists].
    + split; [intros [[? ?]|?]; done | by right].
Qed.

Lemma chainmap_items maps key v :
  (key, v) ∈ ChainMap.items maps <-> ChainMap.lookup maps key = Some v.
Proof.
  unfold ChainMap.items, ChainMap.__iter__. rewrite list_elem_of_omap. split.
  - intros (k & _ & Hk). destruct (ChainMap.lookup maps k) eqn:E; simpl in Hk; [|done].
    by injection Hk as -> ->.
  - intros Hl. exists key. rewrite elem_of_elements, chainmap_keyset, Hl.
    split; [by eexists | done].
Qed.


(** The length of a chain whose layers share no key is the sum of the
    sizes of the layers. *)
Lemma chainmap_len_disjoint maps :
  (forall i j (mi mj : gmap string V),
      i <> j -> maps !! i = Some mi -> maps !! j = Some mj -> mi ##ₘ mj) ->
  ChainMap.__len__ maps = sum_list (size <$> maps).
Proof.
  unfold ChainMap.__len__, ChainMap.keyset.
  induction maps as [|m maps IH]; simpl; intros Hdisj.
  - reflexivity.
  - rewrite size_union.
    + rewrite size_dom. f_equal. apply IH.
      intros i j mi mj Hne Hi Hj. apply (Hdisj (S i) (S j)); [lia|done..].
    + intros key Hm [X [[m' [-> Hin]]%list_elem_of_fmap Hkey]]%elem_of_union_list.
      apply list_elem_of_lookup in Hin as [j Hj].
      specialize (Hdisj 0 (S j) m m' ltac:(lia) eq_refl Hj).
      apply elem_of_dom in Hm as [v Hv]. apply elem_of_dom in Hkey as [v' Hv'].
      by apply (proj1 (map_disjoint_spec m m') Hdisj key v v').
Qed.
End chainmap_facts.

(** ** [Metadata]: the cached view *)

Section metadata_facts.
Context {V : Type} `{EqDecision V}.
Implicit Types (self other : Metadata.state V) (key : string) (value : V).

Lemma refresh_heap self :
  Metadata.heap (Metadata._refresh_chainmap self) = Metadata.heap self.
Proof. unfold Metadata._refresh_chainmap. by destruct (decide _). Qed.

Lemma refresh_meas_set self :
  Metadata._meas_set (Metadata._refresh_chainmap self) = Metadata._meas_set self.
Proof. unfold Metadata._refresh_chainmap. by destruct (decide _). Qed.

Lemma refresh_data self :
  Metadata._data (Metadata._refresh_chainmap self) = Metadata._data self.
Proof. unfold Metadata._refresh_chainmap. by destruct (decide _). Qed.

(** A second refresh in a row changes nothing. *)
Lemma refresh_idem self :
  Metadata._refresh_chainmap (Metadata._refresh_chainmap self) =
  Metadata._refresh_chainmap self.
Proof.
  unfold Metadata._refresh_chainmap.
  destruct (decide (Metadata._cached_prefixes self <> _)) as [Hne|Heq] eqn:E; simpl.
  - rewrite decide_False; [done|]. intros Hn. by apply Hn.
  - by rewrite E.
Qed.

(** When the set of names has changed since the last rebuild, the view
    is rebuilt from the measurements now in the set. *)
Lemma refresh_rebuilds self :
  Metadata._cached_prefixes self <>
    list_to_set (MeasurementSet.__iter__ (Metadata._meas_set self)) ->
  Metadata.maps (Metadata._refresh_chainmap self) = Metadata.layers self.
Proof.
  intros Hne. unfold Metadata._refresh_chainmap. rewrite decide_True by done.
  unfold Metadata.maps, Metadata.layers. simpl. f_equal.
  by rewrite <- list_fmap_compose.
Qed.

Lemma refresh_current self :
  Metadata.view_current self ->
  Metadata.maps (Metadata._refresh_chainmap self) = Metadata.layers self.
Proof.
  intros Hcur.
  destruct (decide (Metadata._cached_prefixes self <>
    list_to_set (MeasurementSet.__iter__ (Metadata._meas_set self)))) as [Hne|Heq%dec_stable].
  - by apply refresh_rebuilds.
  - unfold Metadata._refresh_chainmap. rewrite decide_False by (intros Hn; by apply Hn).
    unfold Metadata.maps, Metadata.layers. rewrite (Hcur Heq). f_equal.
    by rewrite <- list_fmap_compose.
Qed.

(** A view that has just been refreshed is current. *)
Lemma refresh_view_current self :
  Metadata.view_current self ->
  Metadata.view_current (Metadata._refresh_chainmap self).
Proof.
  unfold Metadata.view_current, Metadata._refresh_chainmap.
  destruct (decide _); simpl; done.
Qed.

(** The view of a new core is current, and the writes of the core keep it
    so: only a change of the bound set behind the back of the core can make
    it stale. *)
Lemma setitem_view_current self key value :
  Metadata.view_current self ->
  Metadata.view_current (Metadata.__setitem__ key value self).
Proof.
  unfold Metadata.view_current, Metadata.__setitem__.
  by destruct (Metadata.route key self).
Qed.

Lemma update_view_current (data : list (string * V)) self :
  Metadata.view_current self ->
  Metadata.view_current (Metadata.update data self).
Proof.
  unfold Metadata.update. revert self.
  induction data as [|[key value] data IH]; intros self Hcur; [done|].
  cbn [foldl]. by apply IH, setitem_view_current.
Qed.

Lemma delitem_view_current self key :
  Metadata.view_current self ->
  Metadata.view_current (Metadata.__delitem__ key self).2.
Proof.
  unfold Metadata.view_current, Metadata.__delitem__, MeasurementNotes.__delitem__.
  destruct (Metadata.route key self); by destruct (_ !! _).
Qed.

Lemma init_view_current (h : gmap nat (gmap string V)) ms data :
  Metadata.view_current (Metadata.__init__ h ms data).
Proof.
  unfold Metadata.__init__.
  assert (Metadata.view_current
            (Metadata._refresh_chainmap
               {| Metadata.heap := h; Metadata._meas_set := ms; Metadata._data := ∅;
                  Metadata._chain := []; Metadata._cached_prefixes := ∅ |})) as Hcur.
  { apply refresh_view_current. unfold Metadata.view_current. cbn.
    destruct ms as [|[name m] ms]; [done|].
    intros Hnames. exfalso. cbn in Hnames.
    assert (name ∈ (∅ : gset string)) as Hin by (rewrite Hnames; set_solver).
    by apply elem_of_empty in Hin. }
  destruct data; [by apply update_view_current | done].
Qed.

Lemma eq_loop_cons self key value (its : list (string * V)) :
  Metadata._refresh_chainmap self = self ->
  Metadata.eq_loop ((key, value) :: its) self =
  if negb (ChainMap.__contains__ (Metadata.maps self) key) then (Ok false, self)
  else match ChainMap.lookup (Metadata.maps self) key with
       | None => (Raise KeyError, self)
       | Some value' =>
           if decide (value <> value') then (Ok false, self)
           else Metadata.eq_loop its self
       end.
Proof.
  intros Hr. cbn [Metadata.eq_loop].
  unfold Metadata.__contains__, Metadata.__getitem__, ChainMap.__getitem__.
  rewrite !Hr. destruct (negb _); [done|].
  by destruct (ChainMap.lookup _ _).
Qed.

(** The loop of [__eq__], run on a refreshed core: it never raises, it
    leaves the core as it is, and it answers [True] exactly when every
    item is an entry of the view of the core. *)
Lemma eq_loop_spec self (its : list (string * V)) :
  Metadata._refresh_chainmap self = self ->
  (Metadata.eq_loop its self).2 = self /\
  ((Metadata.eq_loop its self).1 = Ok true \/
   (Metadata.eq_loop its self).1 = Ok false) /\
  ((Metadata.eq_loop its self).1 = Ok true <->
   forall key value, (key, value) ∈ its ->
     ChainMap.lookup (Metadata.maps self) key = Some value).
Proof.
  intros Hr. induction its as [|[key value] its IH].
  - split; [done|]. split; [by left|]. split; [|done].
    intros _ ?? Hin. by apply elem_of_nil in Hin.
  - rewrite eq_loop_cons by done.
    destruct (ChainMap.__contains__ (Metadata.maps self) key) eqn:Ec; cbn [negb].
    + apply chainmap_contains in Ec as [v' Hv']. rewrite Hv'.
      destruct (decide (value <> v')) as [Hne|Heq%dec_stable].
      * split; [done|]. split; [by right|]. split; [done|].
        intros Hall. specialize (Hall key value ltac:(left)). congruence.
      * subst v'. destruct IH as (IH1 & IH2 & IH3).
        split; [done|]. split; [done|]. rewrite IH3. split.
        -- intros Hall k v [[= -> ->]|Hin]%elem_of_cons; [done|]. by apply Hall.
        -- intros Hall k v Hin. apply Hall. by right.
    + split; [done|]. split; [by right|]. split; [done|].
      intros Hall. specialize (Hall key value ltac:(left)).
      assert (ChainMap.__contains__ (Metadata.maps self) key = true) as Hc
        by (apply chainmap_contains; by eexists).
      congruence.
Qed.
End metadata_facts.

(** ** [Metadata]: reads, writes and routing *)

Section metadata_properties.
Context {V : Type} `{EqDecision V}.
Implicit Types (self other : Metadata.state V) (key : string) (value : V).

Lemma route_no_prefix self key :
  Metadata._get_prefix key = None -> Metadata.route key self = None.
Proof. unfold Metadata.route. by intros ->. Qed.

Lemma route_measurement self key prefix m :
  Metadata._get_prefix key = Some prefix ->
  MeasurementSet.__getitem__ (Str.rstrip Str.dot prefix) (Metadata._meas_set self) = Ok m ->
  Metadata.route key self = Some m.
Proof.
  unfold Metadata.route, MeasurementSet.__getitem__, MeasurementSet.__contains__.
  intros -> Hm.
  destruct (Dict.get _ _) as [m'|] eqn:E; [|done].
  injection Hm as ->. by rewrite bool_decide_true.
Qed.

Lemma route_absent self key :
  (forall prefix, Metadata._get_prefix key = Some prefix ->
     MeasurementSet.__contains__ (Str.rstrip Str.dot prefix)
       (Metadata._meas_set self) = false) ->
  Metadata.route key self = None.
Proof.
  unfold Metadata.route. intros Habs.
  destruct (Metadata._get_prefix key) as [prefix|]; [|done].
  by rewrite (Habs prefix).
Qed.

Lemma setitem_meas_set self key value :
  Metadata._meas_set (Metadata.__setitem__ key value self) = Metadata._meas_set self.
Proof. unfold Metadata.__setitem__. by destruct (Metadata.route key self). Qed.

(** A routed key is stored by the annotation store as it is: it already
    starts with the metric name of the measurement and a separator. *)
Lemma format_key_routed self key prefix m :
  MeasurementSet.consistent (Metadata._meas_set self) ->
  Metadata._get_prefix key = Some prefix ->
  MeasurementSet.__getitem__ (Str.rstrip Str.dot prefix) (Metadata._meas_set self) = Ok m ->
  MeasurementNotes._format_key m key = key.
Proof.
  unfold MeasurementSet.__getitem__. intros Hc Hp Hm.
  destruct (Dict.get _ _) as [m'|] eqn:E; [|done]. injection Hm as ->.
  apply dict_get_elem_of, Hc in E.
  unfold MeasurementNotes._format_key, MeasurementNotes._prefix.
  by rewrite E, (get_prefix_startswith _ _ Hp).
Qed.

Lemma notes_data_setitem m key value (h : gmap nat (gmap string V)) id :
  MeasurementNotes._data (MeasurementNotes.__setitem__ m key value h) id =
  if decide (meas_id m = id)
  then <[MeasurementNotes._format_key m key := value]> (MeasurementNotes._data h id)
  else MeasurementNotes._data h id.
Proof.
  unfold MeasurementNotes.__setitem__, MeasurementNotes._data.
  destruct (decide (meas_id m = id)) as [<-|Hne].
  - by rewrite lookup_insert_eq.
  - by rewrite lookup_insert_ne.
Qed.

(** C4.  A key with no metric prefix is written to the general store, and
    the next read of it answers the value written, whatever the bound set
    holds. *)
Theorem setitem_getitem_general self key value :
  Metadata._get_prefix key = None ->
  (Metadata.__getitem__ key (Metadata.__setitem__ key value self)).1 = Ok value /\
  Metadata._data (Metadata.__setitem__ key value self) !! key = Some value /\
  Metadata.heap (Metadata.__setitem__ key value self) = Metadata.heap self.
Proof.
  intros Hp. unfold Metadata.__setitem__. rewrite (route_no_prefix _ _ Hp).
  split; [|split; [apply lookup_insert_eq | done]].
  unfold Metadata.__getitem__, ChainMap.__getitem__, Metadata.maps.
  cbn [fst ChainMap.lookup]. rewrite refresh_data. cbn [Metadata._data].
  by rewrite lookup_insert_eq.
Qed.

(** C2, as amended.  A read answers from the earliest layer that holds
    the key: the general store, which is the first layer, shadows every
    annotation store, and an annotation store shadows those of the
    measurements that come after it in the set. *)
Theorem getitem_first_layer_wins self key value :
  (Metadata._data self !! key = Some value ->
   (Metadata.__getitem__ key self).1 = Ok value) /\
  (forall l1 (m : gmap string V) l2,
     Metadata.maps (Metadata._refresh_chainmap self) = (l1 ++ m :: l2)%list ->
     (forall m', m' ∈ l1 -> m' !! key = None) ->
     m !! key = Some value ->
     (Metadata.__getitem__ key self).1 = Ok value).
Proof.
  unfold Metadata.__getitem__, ChainMap.__getitem__. cbn [fst]. split.
  - intros Hd. unfold Metadata.maps. cbn [ChainMap.lookup].
    by rewrite refresh_data, Hd.
  - intros l1 m l2 -> Hl1 Hm. by rewrite (chainmap_lookup_first l1 m l2 key value).
Qed.

(** C3, as amended.  A key whose prefix names a measurement of the bound
    set is written to the annotation store of that measurement, under the
    full key, and the general store is left as it was.  When the view is
    not stale and no other layer holds the key already, the next read of
    the key answers the value written, and the general store does not
    hold the key. *)
Theorem setitem_routes_to_measurement self key value prefix m :
  MeasurementSet.consistent (Metadata._meas_set self) ->
  Metadata._get_prefix key = Some prefix ->
  MeasurementSet.__getitem__ (Str.rstrip Str.dot prefix) (Metadata._meas_set self) = Ok m ->
  MeasurementNotes._data
    (Metadata.heap (Metadata.__setitem__ key value self)) (meas_id m) !! key
    = Some value /\
  Metadata._data (Metadata.__setitem__ key value self) = Metadata._data self /\
  (Metadata.view_current self ->
   Metadata._data self !! key = None ->
   (forall name m', (name, m') ∈ Metadata._meas_set self ->
      meas_id m' <> meas_id m ->
      MeasurementNotes._data (Metadata.heap self) (meas_id m') !! key = None) ->
   (Metadata.__getitem__ key (Metadata.__setitem__ key value self)).1 = Ok value /\
   Metadata._data (Metadata.__setitem__ key value self) !! key = None).
Proof.
  intros Hc Hp Hm. unfold Metadata.__setitem__.
  rewrite (route_measurement _ _ _ _ Hp Hm). cbn [Metadata.heap Metadata._data].
  pose proof (format_key_routed _ _ _ _ Hc Hp Hm) as Hfk.
  split; [|split; [done|]].
  - rewrite notes_data_setitem, decide_True, Hfk by done. apply lookup_insert_eq.
  - intros Hcur Hd Hothers. split; [|done].
    unfold Metadata.__getitem__, ChainMap.__getitem__. cbn [fst].
    rewrite refresh_current by done.
    unfold Metadata.layers. cbn [Metadata._data Metadata.heap Metadata._meas_set].
    rewrite chainmap_lookup_cons, Hd.
    rewrite (chainmap_lookup_agree _ key value); [done| |].
    + intros m0 [[name m'] [-> Hin]]%list_elem_of_fmap. cbn [snd].
      rewrite notes_data_setitem, Hfk.
      destruct (decide (meas_id m = meas_id m')) as [Heq|Hne].
      * right. apply lookup_insert_eq.
      * left. by apply (Hothers name m').
    + unfold MeasurementSet.__getitem__ in Hm.
      destruct (Dict.get _ _) as [m'|] eqn:E; [|done]. injection Hm as ->.
      apply dict_get_elem_of in E.
      eexists. split.
      * apply list_elem_of_fmap. eexists. split; [reflexivity | exact E].
      * cbn [snd]. rewrite notes_data_setitem, decide_True, Hfk by done.
        apply lookup_insert_eq.
Qed.

(** C6, as amended.  When the view is not stale and no key is held by two
    layers, the length is the number of keys of the general store plus
    the sizes of the annotation stores of the measurements in the bound
    set. *)
Theorem len_disjoint_layers self :
  Metadata.view_current self ->
  Metadata.layers_disjoint self ->
  (Metadata.__len__ self).1 =
  size (Metadata._data self) +
  sum_list ((fun item => size (MeasurementNotes._data (Metadata.heap self) (meas_id item.2)))
              <$> Metadata._meas_set self).
Proof.
  intros Hcur Hdisj. unfold Metadata.__len__. cbn [fst].
  rewrite refresh_current by done.
  rewrite chainmap_len_disjoint by exact Hdisj.
  unfold Metadata.layers. rewrite fmap_cons. cbn [sum_list]. f_equal.
  by rewrite <- list_fmap_compose.
Qed.

(** C9, as amended.  [__delitem__] takes the routing decision of
    [__setitem__], so that it finds the entry that [__setitem__] wrote.
    A key routed to the general store (it has no prefix, or its prefix
    names no measurement of the bound set) and absent from that store is
    a key error; a key routed to a measurement and absent from its
    annotation store is a key error; and a call that raises leaves the
    state as it was. *)
Theorem delitem_errors self key :
  ((forall prefix, Metadata._get_prefix key = Some prefix ->
      MeasurementSet.__contains__ (Str.rstrip Str.dot prefix)
        (Metadata._meas_set self) = false) ->
   Metadata._data self !! key = None ->
   Metadata.__delitem__ key self = (Raise KeyError, self)) /\
  (forall prefix m,
     Metadata._get_prefix key = Some prefix ->
     MeasurementSet.__getitem__ (Str.rstrip Str.dot prefix)
       (Metadata._meas_set self) = Ok m ->
     MeasurementNotes._data (Metadata.heap self) (meas_id m)
       !! MeasurementNotes._format_key m key = None ->
     Metadata.__delitem__ key self = (Raise KeyError, self)) /\
  (forall e self',
     Metadata.__delitem__ key self = (Raise e, self') ->
     e = KeyError /\ self' = self) /\
  (forall value,
     (Metadata.__delitem__ key (Metadata.__setitem__ key value self)).1 = Ok tt).
Proof.
  split; [|split; [|split]].
  - intros Habs Hd. unfold Metadata.__delitem__.
    by rewrite (route_absent _ _ Habs), Hd.
  - intros prefix m Hp Hm Hn. unfold Metadata.__delitem__.
    rewrite (route_measurement _ _ _ _ Hp Hm).
    unfold MeasurementNotes.__delitem__. by rewrite Hn.
  - intros e self'. unfold Metadata.__delitem__, MeasurementNotes.__delitem__.
    destruct (Metadata.route key self) as [m|].
    + destruct (_ !! _); [done|]. by intros [= <- <-].
    + destruct (_ !! _); [done|]. by intros [= <- <-].
  - intros value.
    assert (Metadata.route key (Metadata.__setitem__ key value self)
            = Metadata.route key self) as Hroute.
    { unfold Metadata.route. by rewrite setitem_meas_set. }
    unfold Metadata.__delitem__. rewrite Hroute.
    unfold Metadata.__setitem__, MeasurementNotes.__delitem__.
    destruct (Metadata.route key self) as [m|]; cbn [Metadata.heap Metadata._data].
    + by rewrite notes_data_setitem, decide_True, lookup_insert_eq.
    + by rewrite lookup_insert_eq.
Qed.
End metadata_properties.

(** ** The properties at concrete cores *)

Lemma setitem_getitem_general_witness :
  Metadata._get_prefix "note" = None /\
  (Metadata.__getitem__ "note" (Metadata.__setitem__ "note" 3 Scenario.collision)).1
    = Ok 3 /\
  Metadata._data (Metadata.__setitem__ "note" 3 Scenario.collision) !! "note" = Some 3.
Proof.
  split; [reflexivity|].
  destruct (setitem_getitem_general Scenario.collision "note" 3) as (Hget & Hdata & _).
  - reflexivity.
  - split; [exact Hget | exact Hdata].
Defined.

Lemma getitem_first_layer_wins_witness :
  (Metadata.__getitem__ "validate_drp.PA1.note" Scenario.collision).1 = Ok 1 /\
  (Metadata.__getitem__ "validate_drp.PA1.note" Scenario.in_annotation_store).1 = Ok 5.
Proof.
  split.
  - apply (proj1 (getitem_first_layer_wins
                    Scenario.collision "validate_drp.PA1.note" 1)).
    reflexivity.
  - apply (proj2 (getitem_first_layer_wins
                    Scenario.in_annotation_store "validate_drp.PA1.note" 5)
             [∅] {["validate_drp.PA1.note" := 5]} []).
    + vm_compute. reflexivity.
    + intros m' ->%list_elem_of_singleton. reflexivity.
    + reflexivity.
Defined.

(** C2, as stated, fails on a key held by the general store and by the
    annotation store of a measurement added later: the read answers the
    value of the general store, the earlier layer. *)
Lemma later_layer_does_not_shadow :
  Metadata.maps (Metadata._refresh_chainmap Scenario.collision) =
    [ {["validate_drp.PA1.note" := 1]}; {["validate_drp.PA1.note" := 2]} ] /\
  (Metadata.__getitem__ "validate_drp.PA1.note" Scenario.collision).1 = Ok 1 /\
  (Metadata.__getitem__ "validate_drp.PA1.note" Scenario.collision).1 <> Ok 2.
Proof.
  split; [vm_compute; reflexivity|].
  split; [vm_compute; reflexivity|].
  vm_compute. discriminate.
Qed.

Lemma set_PA1_consistent : MeasurementSet.consistent Scenario.set_PA1.
Proof. intros key m [= -> ->]%list_elem_of_singleton. reflexivity. Qed.

Lemma setitem_routes_to_measurement_witness :
  MeasurementNotes._data (Metadata.heap Scenario.in_annotation_store) 0
    !! "validate_drp.PA1.note" = Some 5 /\
  (Metadata.__getitem__ "validate_drp.PA1.note" Scenario.in_annotation_store).1 = Ok 5 /\
  Metadata._data Scenario.in_annotation_store !! "validate_drp.PA1.note" = None.
Proof.
  destruct (setitem_routes_to_measurement Scenario.bound_empty_PA1
              "validate_drp.PA1.note" 5 "validate_drp.PA1." Scenario.PA1)
    as (Hnotes & _ & Hread).
  - exact set_PA1_consistent.
  - reflexivity.
  - reflexivity.
  - split; [exact Hnotes|]. apply Hread.
    + intros _. reflexivity.
    + reflexivity.
    + intros name m' [= -> ->]%list_elem_of_singleton Hne. by destruct Hne.
Defined.

(** C3, as stated, fails when the general store holds the key already,
    written there before the measurement joined the set: the write goes to
    the annotation store of the measurement, but the read answers the older
    value of the general store, which still holds the key. *)
Lemma setitem_routed_shadowed_by_general_store :
  Metadata._get_prefix "validate_drp.PA1.note" = Some "validate_drp.PA1." /\
  MeasurementSet.__getitem__ (Str.rstrip Str.dot "validate_drp.PA1.")
    (Metadata._meas_set Scenario.general_then_PA1) = Ok Scenario.PA1 /\
  MeasurementNotes._data
    (Metadata.heap (Metadata.__setitem__ "validate_drp.PA1.note" 2 Scenario.general_then_PA1))
    0 !! "validate_drp.PA1.note" = Some 2 /\
  (Metadata.__getitem__ "validate_drp.PA1.note"
     (Metadata.__setitem__ "validate_drp.PA1.note" 2 Scenario.general_then_PA1)).1
    = Ok 1 /\
  Metadata._data (Metadata.__setitem__ "validate_drp.PA1.note" 2 Scenario.general_then_PA1)
    !! "validate_drp.PA1.note" = Some 1.
Proof. repeat split; vm_compute; reflexivity. Qed.

(** C5 (evaluation of the code where the claim fails).  [PA1] is removed
    from the bound set and [PA1'], another measurement of the same metric,
    is added.  The set of names is the one cached at the last rebuild, so
    the next read rebuilds nothing: the annotations of [PA1'] are not
    visible, and the annotation of [PA1] still is. *)
Theorem stale_view_after_replacement :
  Metadata._meas_set Scenario.replaced = [("validate_drp.PA1", Scenario.PA1')] /\
  Metadata.layers Scenario.replaced =
    [ ∅; {["validate_drp.PA1.filter" := 7; "validate_drp.PA1.camera" := 8]} ] /\
  Metadata.maps (Metadata._refresh_chainmap Scenario.replaced) =
    [ ∅; {["validate_drp.PA1.note" := 5]} ] /\
  (Metadata.__contains__ "validate_drp.PA1.filter" Scenario.replaced).1 = false /\
  (Metadata.__getitem__ "validate_drp.PA1.filter" Scenario.replaced).1 = Raise KeyError /\
  (Metadata.__contains__ "validate_drp.PA1.note" Scenario.replaced).1 = true /\
  (Metadata.__getitem__ "validate_drp.PA1.note" Scenario.replaced).1 = Ok 5 /\
  (Metadata.__len__ Scenario.replaced).1 = 1 /\
  (Metadata.__iter__ Scenario.replaced).1 = ["validate_drp.PA1.note"].
Proof. repeat split; vm_compute; reflexivity. Qed.

Lemma two_layers_disjoint : Metadata.layers_disjoint Scenario.two_layers.
Proof.
  assert (Metadata.layers Scenario.two_layers =
          [ {["note" := 3]}; {["validate_drp.PA1.note" := 5]} ]) as Hlayers
    by (vm_compute; reflexivity).
  assert (({["note" := 3]} : gmap string nat) ##ₘ {["validate_drp.PA1.note" := 5]})
    as Hdisj by (apply map_disjoint_singleton_l; reflexivity).
  unfold Metadata.layers_disjoint. rewrite Hlayers.
  intros [|[|i]] [|[|j]] mi mj Hne; simpl; intros Hi Hj; simplify_eq; done.
Qed.

Lemma len_disjoint_layers_witness :
  (Metadata.__len__ Scenario.two_layers).1 = 2.
Proof.
  rewrite (len_disjoint_layers Scenario.two_layers).
  - reflexivity.
  - intros _. reflexivity.
  - exact two_layers_disjoint.
Defined.

(** C6, as stated, fails when a key is held by two layers: the length
    counts the key once, while the general store and the annotation store
    of the measurement hold one entry each. *)
Lemma len_counts_distinct_keys :
  (Metadata.__len__ Scenario.collision).1 = 1 /\
  size (Metadata._data Scenario.collision) = 1 /\
  sum_list ((fun item => size (MeasurementNotes._data (Metadata.heap Scenario.collision)
                                 (meas_id item.2)))
              <$> Metadata._meas_set Scenario.collision) = 1.
Proof. repeat split; vm_compute; reflexivity. Qed.


(** The example of the spec: deleting [missing_key], which no layer holds,
    is a key error; so is deleting an absent annotation of [PA1]. *)
Lemma delitem_errors_witness :
  Metadata.__delitem__ "missing_key" Scenario.collision
    = (Raise KeyError, Scenario.collision) /\
  Metadata.__delitem__ "validate_drp.PA1.other" Scenario.collision
    = (Raise KeyError, Scenario.collision).
Proof.
  split.
  - apply (proj1 (delitem_errors Scenario.collision "missing_key")).
    + intros prefix. discriminate.
    + reflexivity.
  - apply (proj1 (proj2 (delitem_errors Scenario.collision "validate_drp.PA1.other"))
             "validate_drp.PA1." Scenario.PA1); reflexivity.
Defined.

(** C9, as stated, fails on a key whose prefix names a measurement that is
    not in the bound set when the general store holds the key, which is
    where [__setitem__] wrote it: the key is deleted from the general store
    and no error is raised. *)
Lemma delitem_unrouted_prefix_succeeds :
  Metadata._get_prefix "validate_drp.PA1.note" = Some "validate_drp.PA1." /\
  MeasurementSet.__contains__ (Str.rstrip Str.dot "validate_drp.PA1.")
    (Metadata._meas_set Scenario.general_only) = false /\
  (Metadata.__delitem__ "validate_drp.PA1.note" Scenario.general_only).1 = Ok tt /\
  Metadata._data (Metadata.__delitem__ "validate_drp.PA1.note" Scenario.general_only).2
    !! "validate_drp.PA1.note" = None.
Proof. repeat split; vm_compute; reflexivity. Qed.

(** * Further properties *)

(** ** [MeasurementSet]: lookups, lengths and the invariant *)

Section dict_more_facts.
Context {K V : Type} `{EqDecision K}.
Implicit Types (d : list (K * V)).

Lemma dict_keys_set_present k v d :
  is_Some (Dict.get k d) -> Dict.keys (Dict.set k v d) = Dict.keys d.
Proof.
  unfold Dict.keys. induction d as [|[k' v'] d IH]; simpl.
  - by intros [? ?].
  - destruct (decide (k = k')) as [->|Hne]; simpl; [done|].
    intros H'. f_equal. by apply IH.
Qed.

Lemma dict_keys_set_absent k v d :
  Dict.get k d = None -> Dict.keys (Dict.set k v d) = (Dict.keys d ++ [k])%list.
Proof.
  unfold Dict.keys. induction d as [|[k' v'] d IH]; simpl; [done|].
  destruct (decide (k = k')) as [->|Hne]; simpl; [done|].
  intros H'. f_equal. by apply IH.
Qed.

Lemma dict_get_None_keys k d : Dict.get k d = None <-> k ∉ Dict.keys d.
Proof.
  unfold Dict.keys. induction d as [|[k' v'] d IH]; simpl.
  - split; [intros _ Hin; by apply elem_of_nil in Hin | done].
  - destruct (decide (k = k')) as [->|Hne].
    + split; [done|]. intros Hn. destruct Hn. left.
    + rewrite IH. split.
      * intros Hn [?|?]%elem_of_cons; done.
      * intros Hn Hin. apply Hn. by right.
  Qed.

Lemma dict_keys_del k d :
  NoDup (Dict.keys d) ->
  NoDup (Dict.keys (Dict.del k d)) /\
  (forall k', k' ∈ Dict.keys (Dict.del k d) <-> k' ∈ Dict.keys d /\ k' <> k).
Proof.
  unfold Dict.keys. induction d as [|[k' v'] d IH]; simpl.
  - intros _. split; [constructor|]. intros k'. split; [by intros ?%elem_of_nil|].
    by intros [?%elem_of_nil _].
  - intros [Hnin Hnd]%NoDup_cons. destruct (IH Hnd) as [IH1 IH2].
    destruct (decide (k = k')) as [->|Hne]; simpl.
    + split; [done|]. intros k1. split.
      * intros Hin. split; [by right|]. by intros ->.
      * by intros [[->|?]%elem_of_cons ?].
    + split.
      * apply NoDup_cons. split; [|done]. rewrite IH2. by intros [? _].
      * intros k1. rewrite !elem_of_cons, IH2. split.
        -- intros [->|[? ?]]; [split; [by left | done]|]. split; [by right | done].
        -- intros [[->|?] ?]; [by left|]. by right.
Qed.

Lemma dict_get_del_ne k k' d :
  k <> k' -> Dict.get k' (Dict.del k d) = Dict.get k' d.
Proof.
  intros Hne. induction d as [|[k1 v1] d IH]; simpl; [done|].
  destruct (decide (k = k1)) as [->|Hne1]; simpl.
  - by rewrite decide_False.
  - by rewrite IH.
Qed.

Lemma dict_length_del k d :
  is_Some (Dict.get k d) -> length d = S (length (Dict.del k d)).
Proof.
  induction d as [|[k1 v1] d IH]; simpl.
  - by intros [? ?].
  - destruct (decide (k = k1)) as [->|Hne]; simpl; [done|].
    intros H'. by rewrite <- IH.
Qed.
End dict_more_facts.

Lemma measurement_set_contains_get key (self : list (Name * Measurement)) :
  MeasurementSet.__contains__ key self = true <-> is_Some (Dict.get key self).
Proof. unfold MeasurementSet.__contains__. apply bool_decide_eq_true. Qed.

Lemma measurement_set_contains_false key (self : list (Name * Measurement)) :
  MeasurementSet.__contains__ key self = false <-> Dict.get key self = None.
Proof.
  unfold MeasurementSet.__contains__. rewrite bool_decide_eq_false.
  symmetry. apply eq_None_not_Some.
Qed.

(** X1.  What an assignment stores is what a lookup finds: after a
    successful [self[key] = value], [self[key]] is that measurement and
    [key in self] holds, and the lookup of every other key is as before. *)
Theorem measurement_set_setitem_getitem
    (is_metric : Name -> bool) key value (self self' : list (Name * Measurement)) :
  MeasurementSet.__setitem__ is_metric key value self = Ok self' ->
  (exists m, value = PyMeasurement m /\ MeasurementSet.__getitem__ key self' = Ok m) /\
  MeasurementSet.__contains__ key self' = true /\
  (forall key', key' <> key ->
     MeasurementSet.__getitem__ key' self' = MeasurementSet.__getitem__ key' self /\
     MeasurementSet.__contains__ key' self' = MeasurementSet.__contains__ key' self).
Proof.
  unfold MeasurementSet.__setitem__, MeasurementSet.__getitem__,
    MeasurementSet.__contains__.
  destruct (is_metric key); simpl; [|done].
  destruct value as [m|]; [|done].
  destruct (decide (key <> metric_name m)); [done|].
  intros [= <-]. rewrite dict_get_set_eq. split; [by exists m|].
  split; [apply bool_decide_eq_true; by eexists|].
  intros key' Hne. by rewrite dict_get_set_ne.
Qed.

Lemma measurement_set_setitem_getitem_witness :
  exists m, PyMeasurement Scenario.AM1 = PyMeasurement m /\
    MeasurementSet.__getitem__ "validate_drp.AM1"
      [("validate_drp.PA1", Scenario.PA1); ("validate_drp.AM1", Scenario.AM1)] = Ok m.
Proof.
  apply (measurement_set_setitem_getitem Name.is_metric "validate_drp.AM1"
           (PyMeasurement Scenario.AM1) Scenario.set_PA1).
  reflexivity.
Defined.

(** X2.  An assignment under a key of the set replaces the measurement
    where it is: the length and the order of iteration are unchanged.
    Under a new key the length grows by one and the key is iterated
    last. *)
Theorem measurement_set_setitem_len
    (is_metric : Name -> bool) key value (self self' : list (Name * Measurement)) :
  MeasurementSet.__setitem__ is_metric key value self = Ok self' ->
  (MeasurementSet.__contains__ key self = true ->
   MeasurementSet.__iter__ self' = MeasurementSet.__iter__ self /\
   MeasurementSet.__len__ self' = MeasurementSet.__len__ self) /\
  (MeasurementSet.__contains__ key self = false ->
   MeasurementSet.__iter__ self' = (MeasurementSet.__iter__ self ++ [key])%list /\
   MeasurementSet.__len__ self' = S (MeasurementSet.__len__ self)).
Proof.
  unfold MeasurementSet.__setitem__, MeasurementSet.__iter__, MeasurementSet.__len__.
  destruct (is_metric key); simpl; [|done].
  destruct value as [m|]; [|done].
  destruct (decide (key <> metric_name m)); [done|].
  intros [= <-]. split.
  - intros Hin%measurement_set_contains_get.
    pose proof (dict_keys_set_present key m self Hin) as Hkeys.
    split; [done|].
    apply (f_equal length) in Hkeys. unfold Dict.keys in Hkeys.
    by rewrite !length_fmap in Hkeys.
  - intros Hnin%measurement_set_contains_false.
    pose proof (dict_keys_set_absent key m self Hnin) as Hkeys.
    split; [done|].
    apply (f_equal length) in Hkeys. unfold Dict.keys in Hkeys.
    rewrite length_app, !length_fmap in Hkeys. simpl in Hkeys. lia.
Qed.

Lemma measurement_set_setitem_len_witness :
  MeasurementSet.__iter__
    [("validate_drp.PA1", Scenario.PA1); ("validate_drp.AM1", Scenario.AM1)] =
    ["validate_drp.PA1"; "validate_drp.AM1"] /\
  MeasurementSet.__iter__ [("validate_drp.PA1", Scenario.PA1')] = ["validate_drp.PA1"].
Proof.
  split.
  - apply (proj2 (measurement_set_setitem_len Name.is_metric "validate_drp.AM1"
             (PyMeasurement Scenario.AM1) Scenario.set_PA1 _ eq_refl)).
    reflexivity.
  - apply (proj1 (measurement_set_setitem_len Name.is_metric "validate_drp.PA1"
             (PyMeasurement Scenario.PA1') Scenario.set_PA1 _ eq_refl)).
    reflexivity.
Defined.

(** X3.  Every set is well formed: the set a constructor call returns is,
    and [__setitem__], [insert] and [__delitem__] keep a set so.  No key
    occurs twice, every key is a metric name, and every measurement is
    stored under its own declared metric name. *)
Theorem measurement_set_well_formed (is_metric : Name -> bool) :
  (forall measurements self,
     MeasurementSet.__init__ is_metric measurements = Ok self ->
     MeasurementSet.well_formed is_metric self) /\
  (forall key value self self',
     MeasurementSet.well_formed is_metric self ->
     MeasurementSet.__setitem__ is_metric key value self = Ok self' ->
     MeasurementSet.well_formed is_metric self') /\
  (forall measurement self self',
     MeasurementSet.well_formed is_metric self ->
     MeasurementSet.insert is_metric measurement self = Ok self' ->
     MeasurementSet.well_formed is_metric self') /\
  (forall key self self',
     MeasurementSet.well_formed is_metric self ->
     MeasurementSet.__delitem__ key self = Ok self' ->
     MeasurementSet.well_formed is_metric self').
Proof.
  assert (Hset : forall key value self self',
     MeasurementSet.well_formed is_metric self ->
     MeasurementSet.__setitem__ is_metric key value self = Ok self' ->
     MeasurementSet.well_formed is_metric self').
  { intros key value self self' (Hnd & Hc & Hm) Hs.
    split; [|split].
    - revert Hs. unfold MeasurementSet.__setitem__.
      destruct (is_metric key); simpl; [|done].
      destruct value as [m|]; [|done].
      destruct (decide (key <> metric_name m)); [done|].
      intros [= <-].
      destruct (Dict.get key self) as [m0|] eqn:E.
      + rewrite dict_keys_set_present by (by eexists). done.
      + rewrite dict_keys_set_absent by done.
        apply NoDup_app. split; [done|]. split; [|apply NoDup_singleton].
        intros k Hk ->%list_elem_of_singleton.
        by apply dict_get_None_keys in E.
    - by eapply setitem_consistent.
    - revert Hs. unfold MeasurementSet.__setitem__.
      destruct (is_metric key) eqn:Ekey; simpl; [|done].
      destruct value as [m|]; [|done].
      destruct (decide (key <> metric_name m)); [done|].
      intros [= <-] k.
      destruct (Dict.get key self) as [m0|] eqn:E.
      + rewrite dict_keys_set_present by (by eexists). apply Hm.
      + rewrite dict_keys_set_absent by done.
        intros [?|Hk%list_elem_of_singleton]%elem_of_app; [by apply Hm | by subst]. }
  assert (Hins : forall measurement self self',
     MeasurementSet.well_formed is_metric self ->
     MeasurementSet.insert is_metric measurement self = Ok self' ->
     MeasurementSet.well_formed is_metric self').
  { intros measurement self self' Hwf. unfold MeasurementSet.insert.
    destruct (getattr_metric_name measurement); [|done]. by apply Hset. }
  split; [|split; [exact Hset | split; [exact Hins|]]].
  - intros [l|] self; [|done]. simpl.
    assert (Hloop : forall l s s', MeasurementSet.well_formed is_metric s ->
              MeasurementSet.init_loop is_metric l s = Ok s' ->
              MeasurementSet.well_formed is_metric s').
    { clear l self. induction l as [|o l IH]; simpl; intros s s' Hwf.
      - by intros [= <-].
      - destruct (MeasurementSet.insert is_metric o s) as [s1|] eqn:E; [|done].
        apply IH. by eapply Hins. }
    apply Hloop. split; [constructor|]. split.
    + intros k m Hin. by apply elem_of_nil in Hin.
    + intros k Hin. by apply elem_of_nil in Hin.
  - intros key self self' (Hnd & Hc & Hm). unfold MeasurementSet.__delitem__.
    destruct (Dict.get key self) as [m0|]; [|done]. intros [= <-].
    destruct (dict_keys_del key self Hnd) as [Hnd' Hkeys].
    split; [done|]. split.
    + intros k m Hin%dict_elem_of_del. by apply Hc.
    + intros k [Hin _]%Hkeys. by apply Hm.
Qed.

Lemma measurement_set_well_formed_witness :
  MeasurementSet.well_formed Name.is_metric
    [("validate_drp.PA1", Scenario.PA1); ("validate_drp.AM1", Scenario.AM1)].
Proof.
  apply (proj1 (measurement_set_well_formed Name.is_metric)
           (Some [PyMeasurement Scenario.PA1; PyMeasurement Scenario.AM1])).
  reflexivity.
Defined.

(** X4.  Deleting a key that is not in the set is a key error.  Deleting a
    key of the set removes it: the key is no longer in the set, the length
    is one less, and the lookup of every other key is as before. *)
Theorem measurement_set_delitem key (self : list (Name * Measurement)) :
  (MeasurementSet.__contains__ key self = false ->
   MeasurementSet.__delitem__ key self = Raise KeyError) /\
  (MeasurementSet.__contains__ key self = true ->
   NoDup (MeasurementSet.__iter__ self) ->
   exists self',
     MeasurementSet.__delitem__ key self = Ok self' /\
     MeasurementSet.__contains__ key self' = false /\
     MeasurementSet.__getitem__ key self' = Raise KeyError /\
     MeasurementSet.__len__ self = S (MeasurementSet.__len__ self') /\
     (forall key', key' <> key ->
        MeasurementSet.__getitem__ key' self' = MeasurementSet.__getitem__ key' self)).
Proof.
  unfold MeasurementSet.__delitem__, MeasurementSet.__iter__, MeasurementSet.__len__,
    MeasurementSet.__getitem__.
  split.
  - by intros ->%measurement_set_contains_false.
  - intros Hin%measurement_set_contains_get Hnd.
    destruct (Dict.get key self) as [m|] eqn:E; [|by destruct Hin].
    exists (Dict.del key self). split; [done|].
    destruct (dict_keys_del key self Hnd) as [_ Hkeys].
    assert (Dict.get key (Dict.del key self) = None) as Hgone.
    { apply dict_get_None_keys. rewrite Hkeys. by intros [_ ?]. }
    split; [by apply measurement_set_contains_false|].
    rewrite Hgone. split; [done|].
    split; [apply dict_length_del; by eexists|].
    intros key' Hne. by rewrite dict_get_del_ne.
Qed.

Lemma measurement_set_delitem_witness :
  MeasurementSet.__delitem__ "validate_drp.AM1" Scenario.set_PA1 = Raise KeyError /\
  exists self',
    MeasurementSet.__delitem__ "validate_drp.PA1" Scenario.set_PA1 = Ok self' /\
    MeasurementSet.__contains__ "validate_drp.PA1" self' = false.
Proof.
  split.
  - apply (proj1 (measurement_set_delitem "validate_drp.AM1" Scenario.set_PA1)).
    reflexivity.
  - destruct (proj2 (measurement_set_delitem "validate_drp.PA1" Scenario.set_PA1))
      as (self' & Hdel & Hgone & _).
    + reflexivity.
    + apply NoDup_singleton.
    + exists self'. split; [exact Hdel | exact Hgone].
Defined.

(** ** [ChainMap]: keys and items *)

Section chainmap_more_facts.
Context {V : Type}.
Implicit Types (maps : list (gmap string V)) (key : string).

Lemma chainmap_iter maps key :
  key ∈ ChainMap.__iter__ maps <-> is_Some (ChainMap.lookup maps key).
Proof. unfold ChainMap.__iter__. by rewrite elem_of_elements, chainmap_keyset. Qed.

Lemma chainmap_iter_NoDup maps : NoDup (ChainMap.__iter__ maps).
Proof. apply NoDup_elements. Qed.

Lemma chainmap_len_iter maps :
  ChainMap.__len__ maps = length (ChainMap.__iter__ maps).
Proof. reflexivity. Qed.

Lemma chainmap_contains_false maps key :
  ChainMap.__contains__ maps key = false <-> ChainMap.lookup maps key = None.
Proof.
  rewrite eq_None_not_Some, <- chainmap_contains.
  by destruct (ChainMap.__contains__ maps key).
Qed.

Lemma omap_pair_keys (f : string -> option V) (l : list string) :
  Forall (fun k => is_Some (f k)) l ->
  (omap (fun k => pair k <$> f k) l).*1 = l.
Proof.
  induction 1 as [|k l [v Hv] _ IH]; simpl; [done|].
  rewrite Hv. simpl. f_equal. exact IH.
Qed.

Lemma chainmap_items_keys maps :
  (ChainMap.items maps).*1 = ChainMap.__iter__ maps.
Proof.
  unfold ChainMap.items. apply omap_pair_keys.
  apply Forall_forall. intros k Hk. by apply chainmap_iter.
Qed.
End chainmap_more_facts.

(** ** [Metadata]: the read interface *)

Section metadata_reads.
Context {V : Type} `{EqDecision V}.
Implicit Types (self other : Metadata.state V) (key : string) (value : V).

(** X5.  The three ways of asking for a key agree: [key in meta] holds
    exactly when [meta[key]] returns a value, and exactly when the key is
    among [meta.keys()]; otherwise [meta[key]] is a key error. *)
Theorem metadata_contains_getitem_keys self key :
  ((Metadata.__contains__ key self).1 = true <->
   exists value, (Metadata.__getitem__ key self).1 = Ok value) /\
  ((Metadata.__contains__ key self).1 = true <-> key ∈ (Metadata.keys self).1) /\
  ((Metadata.__contains__ key self).1 = false <->
   (Metadata.__getitem__ key self).1 = Raise KeyError).
Proof.
  unfold Metadata.__contains__, Metadata.__getitem__, Metadata.keys,
    Metadata.__iter__, ChainMap.__getitem__. cbn [fst].
  set (maps := Metadata.maps (Metadata._refresh_chainmap self)).
  rewrite chainmap_iter, chainmap_contains, chainmap_contains_false.
  destruct (ChainMap.lookup maps key) as [v|]; repeat split; try done.
  - intros _. by exists v.
  - by intros [? ?].
Qed.

(** X6.  [len(meta)] is the number of keys that [meta.keys()] lists, no key
    is listed twice, and [meta.items()] pairs the keys, in that order, each
    with the value that [meta[key]] returns. *)
Theorem metadata_len_keys_items self :
  (Metadata.__len__ self).1 = length (Metadata.keys self).1 /\
  NoDup (Metadata.keys self).1 /\
  (Metadata.items self).1.*1 = (Metadata.keys self).1 /\
  (forall key value,
     (key, value) ∈ (Metadata.items self).1 <->
     (Metadata.__getitem__ key self).1 = Ok value).
Proof.
  unfold Metadata.__len__, Metadata.keys, Metadata.__iter__, Metadata.items,
    Metadata.__getitem__, ChainMap.__getitem__. cbn [fst].
  split; [apply chainmap_len_iter|].
  split; [apply chainmap_iter_NoDup|].
  split; [apply chainmap_items_keys|].
  intros key value. rewrite chainmap_items.
  destruct (ChainMap.lookup _ key); split; intros; simplify_eq; done.
Qed.

(** X7.  A read changes nothing that a read can see: whichever read comes
    first ([meta[key']], [key' in meta], [len(meta)], iteration or
    [items()]), it leaves the general store, the bound set and the
    annotation stores as they are, and a read after it returns what it
    would have returned without it. *)
Theorem metadata_reads_are_pure self key key' self' :
  self' ∈ [ (Metadata.__getitem__ key' self).2; (Metadata.__contains__ key' self).2;
            (Metadata.__len__ self).2; (Metadata.__iter__ self).2;
            (Metadata.items self).2 ] ->
  Metadata._data self' = Metadata._data self /\
  Metadata._meas_set self' = Metadata._meas_set self /\
  Metadata.heap self' = Metadata.heap self /\
  (Metadata.__getitem__ key self').1 = (Metadata.__getitem__ key self).1 /\
  (Metadata.__contains__ key self').1 = (Metadata.__contains__ key self).1 /\
  (Metadata.__len__ self').1 = (Metadata.__len__ self).1 /\
  (Metadata.items self').1 = (Metadata.items self).1.
Proof.
  intros Hin.
  assert (self' = Metadata._refresh_chainmap self) as ->.
  { repeat (apply elem_of_cons in Hin as [->|Hin]; [done|]).
    by apply elem_of_nil in Hin. }
  unfold Metadata.__getitem__, Metadata.__contains__, Metadata.__len__,
    Metadata.items. cbn [fst].
  by rewrite refresh_idem, refresh_data, refresh_meas_set, refresh_heap.
Qed.
End metadata_reads.

(** ** [Metadata]: writes *)

Section metadata_writes.
Context {V : Type} `{EqDecision V}.
Implicit Types (self other : Metadata.state V) (key : string) (value : V).

Lemma route_Some_inv self key m :
  Metadata.route key self = Some m ->
  exists prefix,
    Metadata._get_prefix key = Some prefix /\
    MeasurementSet.__getitem__ (Str.rstrip Str.dot prefix) (Metadata._meas_set self) = Ok m.
Proof.
  unfold Metadata.route, MeasurementSet.__getitem__.
  destruct (Metadata._get_prefix key) as [prefix|]; [|done].
  destruct (MeasurementSet.__contains__ _ _); [|done].
  intros Hm. exists prefix. by rewrite Hm.
Qed.

Lemma route_format_key self key m :
  MeasurementSet.consistent (Metadata._meas_set self) ->
  Metadata.route key self = Some m ->
  MeasurementNotes._format_key m key = key.
Proof.
  intros Hc (prefix & Hp & Hm)%route_Some_inv. by eapply format_key_routed.
Qed.

Lemma route_elem_of self key m :
  Metadata.route key self = Some m ->
  exists name, (name, m) ∈ Metadata._meas_set self.
Proof.
  intros (prefix & _ & Hm)%route_Some_inv. unfold MeasurementSet.__getitem__ in Hm.
  destruct (Dict.get _ _) as [m'|] eqn:E; [|done]. injection Hm as ->.
  eexists. by apply dict_get_elem_of.
Qed.

Lemma maps_refresh self :
  Metadata.maps (Metadata._refresh_chainmap self) =
  Metadata._data self ::
  (MeasurementNotes._data (Metadata.heap self)
     <$> Metadata._chain (Metadata._refresh_chainmap self)).
Proof. unfold Metadata.maps. by rewrite refresh_data, refresh_heap. Qed.

(** The chain that a refresh leaves depends on the bound set and on the
    cache only. *)
Lemma refresh_chain_ext self self' :
  Metadata._meas_set self' = Metadata._meas_set self ->
  Metadata._chain self' = Metadata._chain self ->
  Metadata._cached_prefixes self' = Metadata._cached_prefixes self ->
  Metadata._chain (Metadata._refresh_chainmap self') =
  Metadata._chain (Metadata._refresh_chainmap self).
Proof.
  intros Hms Hch Hca. unfold Metadata._refresh_chainmap. rewrite Hms, Hca.
  by destruct (decide _).
Qed.

Lemma setitem_refresh_chain self key value :
  Metadata._chain (Metadata._refresh_chainmap (Metadata.__setitem__ key value self)) =
  Metadata._chain (Metadata._refresh_chainmap self).
Proof.
  apply refresh_chain_ext; unfold Metadata.__setitem__;
    by destruct (Metadata.route key self).
Qed.

Lemma delitem_refresh_chain self key :
  Metadata._chain (Metadata._refresh_chainmap (Metadata.__delitem__ key self).2) =
  Metadata._chain (Metadata._refresh_chainmap self).
Proof.
  apply refresh_chain_ext;
    unfold Metadata.__delitem__, MeasurementNotes.__delitem__;
    destruct (Metadata.route key self); by destruct (_ !! _).
Qed.

Lemma chainmap_lookup_fmap_ext {A} (f g : A -> gmap string V) (l : list A) key :
  (forall x, x ∈ l -> f x !! key = g x !! key) ->
  ChainMap.lookup (f <$> l) key = ChainMap.lookup (g <$> l) key.
Proof.
  induction l as [|x l IH]; intros Hext; [done|].
  rewrite !fmap_cons, !chainmap_lookup_cons, (Hext x) by left.
  rewrite IH; [done|]. intros y Hy. apply Hext. by right.
Qed.

Lemma notes_data_delitem m key (h h' : gmap nat (gmap string V)) id :
  MeasurementNotes.__delitem__ m key h = Ok h' ->
  MeasurementNotes._data h' id =
  if decide (meas_id m = id)
  then delete (MeasurementNotes._format_key m key) (MeasurementNotes._data h id)
  else MeasurementNotes._data h id.
Proof.
  unfold MeasurementNotes.__delitem__.
  destruct (_ !! _); [|done]. intros [= <-]. unfold MeasurementNotes._data.
  destruct (decide (meas_id m = id)) as [<-|Hne].
  - by rewrite lookup_insert_eq.
  - by rewrite lookup_insert_ne.
Qed.

(** X8.  A write touches one key only: after [meta[key] = value], and
    after [del meta[key]] whether it raised or not, every other key reads
    as before. *)
Theorem metadata_write_frame self key key' value :
  MeasurementSet.consistent (Metadata._meas_set self) ->
  key' <> key ->
  (Metadata.__getitem__ key' (Metadata.__setitem__ key value self)).1 =
    (Metadata.__getitem__ key' self).1 /\
  (Metadata.__getitem__ key' (Metadata.__delitem__ key self).2).1 =
    (Metadata.__getitem__ key' self).1.
Proof.
  intros Hc Hne. unfold Metadata.__getitem__, ChainMap.__getitem__. cbn [fst].
  rewrite !maps_refresh, setitem_refresh_chain, delitem_refresh_chain.
  rewrite !chainmap_lookup_cons. split.
  - unfold Metadata.__setitem__.
    destruct (Metadata.route key self) as [m|] eqn:Er;
      cbn [Metadata._data Metadata.heap].
    + rewrite (chainmap_lookup_fmap_ext _
                 (MeasurementNotes._data (Metadata.heap self))); [done|].
      intros id _. rewrite notes_data_setitem, (route_format_key _ _ _ Hc Er).
      destruct (decide _); [|done]. by rewrite lookup_insert_ne.
    + by rewrite lookup_insert_ne.
  - unfold Metadata.__delitem__.
    destruct (Metadata.route key self) as [m|] eqn:Er.
    + destruct (MeasurementNotes.__delitem__ m key (Metadata.heap self))
        as [h'|] eqn:Ed; cbn [snd Metadata._data Metadata.heap]; [|done].
      rewrite (chainmap_lookup_fmap_ext _
                 (MeasurementNotes._data (Metadata.heap self))); [done|].
      intros id _. rewrite (notes_data_delitem _ _ _ _ _ Ed),
        (route_format_key _ _ _ Hc Er).
      destruct (decide _); [|done]. by rewrite lookup_delete_ne.
    + destruct (Metadata._data self !! key);
        cbn [snd Metadata._data Metadata.heap]; [|done].
      by rewrite lookup_delete_ne.
Qed.

(** X9.  A key whose prefix names no measurement of the bound set is
    written to the general store, like a key without prefix, and the next
    read of it returns the value written; the annotation stores are left
    alone. *)
Theorem metadata_setitem_unrouted self key value :
  (forall prefix, Metadata._get_prefix key = Some prefix ->
     MeasurementSet.__contains__ (Str.rstrip Str.dot prefix)
       (Metadata._meas_set self) = false) ->
  (Metadata.__getitem__ key (Metadata.__setitem__ key value self)).1 = Ok value /\
  (Metadata.__contains__ key (Metadata.__setitem__ key value self)).1 = true /\
  Metadata._data (Metadata.__setitem__ key value self) = <[key := value]> (Metadata._data self) /\
  Metadata.heap (Metadata.__setitem__ key value self) = Metadata.heap self.
Proof.
  intros Habs. unfold Metadata.__setitem__. rewrite (route_absent _ _ Habs).
  unfold Metadata.__getitem__, Metadata.__contains__, ChainMap.__getitem__.
  cbn [fst]. rewrite maps_refresh. cbn [Metadata._data Metadata.heap].
  rewrite chainmap_lookup_cons, lookup_insert_eq. split; [done|].
  split; [|done]. apply chainmap_contains.
  rewrite chainmap_lookup_cons, lookup_insert_eq. by eexists.
Qed.
End metadata_writes.

Section metadata_update.
Context {V : Type} `{EqDecision V}.
Implicit Types (self other : Metadata.state V) (key : string) (value : V).

Lemma route_setitem self key key' value :
  Metadata.route key' (Metadata.__setitem__ key value self) = Metadata.route key' self.
Proof. unfold Metadata.route. by rewrite setitem_meas_set. Qed.

Lemma update_snoc (data : list (string * V)) key value self :
  Metadata.update (data ++ [(key, value)])%list self =
  Metadata.__setitem__ key value (Metadata.update data self).
Proof. unfold Metadata.update. by rewrite foldl_app. Qed.

Lemma update_meas_set (data : list (string * V)) self :
  Metadata._meas_set (Metadata.update data self) = Metadata._meas_set self.
Proof.
  induction data as [|[key value] data IH] using rev_ind; [done|].
  by rewrite update_snoc, setitem_meas_set.
Qed.

Lemma chainmap_lookup_is_Some (maps : list (gmap string V)) key :
  is_Some (ChainMap.lookup maps key) <-> exists m, m ∈ maps /\ is_Some (m !! key).
Proof.
  split.
  - intros [v (l1 & m & l2 & -> & _ & Hm)%chainmap_lookup_Some].
    exists m. split; [|by eexists]. apply elem_of_app. right. left.
  - intros (m & Hin & Hm). rewrite <- not_eq_None_Some, chainmap_lookup_None.
    intros Hall. rewrite (Hall m Hin) in Hm. by destruct Hm.
Qed.

(** A write only adds keys to the layers of the view, and adds its own. *)
Lemma setitem_layers_mono self key value k :
  is_Some (ChainMap.lookup (Metadata.layers self) k) ->
  is_Some (ChainMap.lookup (Metadata.layers (Metadata.__setitem__ key value self)) k).
Proof.
  rewrite !chainmap_lookup_is_Some. intros (m & Hin & Hm).
  unfold Metadata.layers in *. rewrite setitem_meas_set.
  apply elem_of_cons in Hin as [->|Hin].
  - eexists. split; [left|]. unfold Metadata.__setitem__.
    destruct (Metadata.route key self); cbn [Metadata._data]; [done|].
    rewrite lookup_insert. by destruct (decide _).
  - apply list_elem_of_fmap in Hin as (item & -> & Hin).
    eexists. split.
    + right. apply list_elem_of_fmap. exists item. split; [reflexivity | done].
    + cbn beta. unfold Metadata.__setitem__.
      destruct (Metadata.route key self) as [m0|]; cbn [Metadata.heap]; [|done].
      rewrite notes_data_setitem. destruct (decide _); [|done].
      rewrite lookup_insert. by destruct (decide _).
Qed.

Lemma setitem_layers_key self key value :
  MeasurementSet.consistent (Metadata._meas_set self) ->
  is_Some (ChainMap.lookup (Metadata.layers (Metadata.__setitem__ key value self)) key).
Proof.
  intros Hc. rewrite chainmap_lookup_is_Some.
  unfold Metadata.layers. rewrite setitem_meas_set. unfold Metadata.__setitem__.
  destruct (Metadata.route key self) as [m|] eqn:Er;
    cbn [Metadata._data Metadata.heap].
  - destruct (route_elem_of _ _ _ Er) as [name Hin].
    eexists. split.
    + right. apply list_elem_of_fmap. exists (name, m). split; [reflexivity | done].
    + cbn [snd]. rewrite notes_data_setitem, decide_True by done.
      rewrite (route_format_key _ _ _ Hc Er), lookup_insert_eq. by eexists.
  - eexists. split; [left|]. rewrite lookup_insert_eq. by eexists.
Qed.

(** X10.  [meta.update(data)] writes the items of [data] one after the
    other.  When the view is not stale, every key of [data] is in [meta]
    afterwards. *)
Theorem metadata_update_contains (data : list (string * V)) self key :
  Metadata.view_current self ->
  MeasurementSet.consistent (Metadata._meas_set self) ->
  key ∈ data.*1 ->
  (Metadata.__contains__ key (Metadata.update data self)).1 = true.
Proof.
  intros Hcur Hc Hin.
  unfold Metadata.__contains__. cbn [fst].
  rewrite refresh_current by (by apply update_view_current).
  apply chainmap_contains. revert Hin.
  induction data as [|[k v] data IH] using rev_ind.
  - by intros ?%elem_of_nil.
  - rewrite update_snoc, fmap_app.
    intros [Hin|Hk%list_elem_of_singleton]%elem_of_app.
    + by apply setitem_layers_mono, IH.
    + simpl in Hk. subst k. apply setitem_layers_key. by rewrite update_meas_set.
Qed.

(** X11.  After [meta.update(data)], a key of [data] that is not routed to
    a measurement (it has no prefix, or its prefix names no measurement of
    the bound set) reads the value [data] gives it; [data], a dictionary,
    has no key twice. *)
Theorem metadata_update_unrouted (data : list (string * V)) self key value :
  NoDup data.*1 ->
  (key, value) ∈ data ->
  (forall prefix, Metadata._get_prefix key = Some prefix ->
     MeasurementSet.__contains__ (Str.rstrip Str.dot prefix)
       (Metadata._meas_set self) = false) ->
  (Metadata.__getitem__ key (Metadata.update data self)).1 = Ok value /\
  Metadata._data (Metadata.update data self) !! key = Some value.
Proof.
  intros Hnd Hin Habs.
  assert (Metadata._data (Metadata.update data self) !! key = Some value) as Hd.
  { revert Hnd Hin. induction data as [|[k v] data IH] using rev_ind.
    - by intros _ ?%elem_of_nil.
    - rewrite update_snoc, fmap_app.
      intros (Hnd & Hfresh & _)%NoDup_app
             [Hin|[= -> ->]%list_elem_of_singleton]%elem_of_app.
      + assert (k <> key) as Hne.
        { intros ->. apply (Hfresh key); [|left].
          apply list_elem_of_fmap. by exists (key, value). }
        unfold Metadata.__setitem__.
        destruct (Metadata.route k _); cbn [Metadata._data]; [by apply IH|].
        rewrite lookup_insert_ne by done. by apply IH.
      + unfold Metadata.__setitem__. rewrite route_absent.
        * cbn [Metadata._data]. apply lookup_insert_eq.
        * intros prefix Hp. rewrite update_meas_set. by apply Habs. }
  split; [|done].
  unfold Metadata.__getitem__, ChainMap.__getitem__. cbn [fst].
  by rewrite maps_refresh, chainmap_lookup_cons, Hd.
Qed.

(** X12.  Deleting what was just written undoes the write: when [key] is
    not in [meta] and the view is not stale, [meta[key] = value] followed
    by [del meta[key]] does not raise, and afterwards every key reads as it
    did before the two calls. *)
Theorem metadata_setitem_delitem self key value k :
  Metadata.view_current self ->
  MeasurementSet.consistent (Metadata._meas_set self) ->
  (Metadata.__getitem__ key self).1 = Raise KeyError ->
  (Metadata.__delitem__ key (Metadata.__setitem__ key value self)).1 = Ok tt /\
  (Metadata.__getitem__ k
     (Metadata.__delitem__ key (Metadata.__setitem__ key value self)).2).1 =
  (Metadata.__getitem__ k self).1.
Proof.
  intros Hcur Hc Habsent.
  assert (ChainMap.lookup (Metadata.layers self) key = None) as Hnone.
  { revert Habsent. unfold Metadata.__getitem__, ChainMap.__getitem__. cbn [fst].
    rewrite refresh_current by done. by destruct (ChainMap.lookup _ _). }
  rewrite chainmap_lookup_None in Hnone.
  unfold Metadata.__getitem__, ChainMap.__getitem__. cbn [fst].
  rewrite !maps_refresh, delitem_refresh_chain, setitem_refresh_chain.
  unfold Metadata.__delitem__. rewrite route_setitem. unfold Metadata.__setitem__.
  destruct (Metadata.route key self) as [m|] eqn:Er;
    cbn [Metadata._data Metadata.heap].
  - pose proof (route_format_key _ _ _ Hc Er) as Hfk.
    destruct (MeasurementNotes.__delitem__ m key _) as [h'|] eqn:Ed.
    + cbn [fst snd Metadata._data Metadata.heap]. split; [done|].
      rewrite !chainmap_lookup_cons.
      rewrite (chainmap_lookup_fmap_ext _
                 (MeasurementNotes._data (Metadata.heap self))); [done|].
      intros id _. rewrite (notes_data_delitem _ _ _ _ _ Ed), notes_data_setitem, Hfk.
      destruct (decide (meas_id m = id)) as [<-|]; [|done].
      rewrite lookup_delete, lookup_insert.
      destruct (decide (key = k)) as [<-|]; [|done].
      destruct (route_elem_of _ _ _ Er) as [name Hin].
      symmetry. apply Hnone. right.
      apply list_elem_of_fmap. by exists (name, m).
    + exfalso. revert Ed. unfold MeasurementNotes.__delitem__.
      by rewrite notes_data_setitem, decide_True, Hfk, lookup_insert_eq.
  - rewrite lookup_insert_eq. cbn [fst snd Metadata._data Metadata.heap].
    split; [done|]. rewrite !chainmap_lookup_cons.
    rewrite lookup_delete, lookup_insert.
    destruct (decide (key = k)) as [<-|]; [|done].
    rewrite (Hnone (Metadata._data self)) by left. done.
Qed.
End metadata_update.

(** ** [Metadata]: construction, changes of the bound set, equality *)

Section metadata_views.
Context {V : Type} `{EqDecision V}.
Implicit Types (self other : Metadata.state V) (key : string) (value : V).

Lemma chainmap_lookup_empty_cons (maps : list (gmap string V)) key :
  ChainMap.lookup (∅ :: maps) key = ChainMap.lookup maps key.
Proof. by rewrite chainmap_lookup_cons, lookup_empty. Qed.

Lemma chainmap_len_empty_cons (maps : list (gmap string V)) :
  ChainMap.__len__ (∅ :: maps) = ChainMap.__len__ maps.
Proof.
  unfold ChainMap.__len__, ChainMap.keyset. rewrite fmap_cons, union_list_cons.
  by rewrite dom_empty_L, (left_id_L ∅ (∪)).
Qed.

Lemma init_layers (h : gmap nat (gmap string V)) ms :
  Metadata.maps (Metadata._refresh_chainmap (Metadata.__init__ h ms None)) =
  ∅ :: ((fun item => MeasurementNotes._data h (meas_id item.2)) <$> ms).
Proof.
  rewrite refresh_current by apply init_view_current.
  unfold Metadata.layers, Metadata.__init__.
  by rewrite refresh_data, refresh_heap, refresh_meas_set.
Qed.

(** X13.  A core constructed over a set, without seed data, shows the
    annotations of the measurements of the set and nothing else, the first
    measurement of the set answering first; over the empty set it has no
    key.  With seed data the constructor goes on with [update]. *)
Theorem metadata_init_reads (h : gmap nat (gmap string V)) ms data key :
  (Metadata.__getitem__ key (Metadata.__init__ h ms None)).1 =
    ChainMap.__getitem__
      ((fun item => MeasurementNotes._data h (meas_id item.2)) <$> ms) key /\
  (Metadata.__len__ (Metadata.__init__ h ms None)).1 =
    ChainMap.__len__ ((fun item => MeasurementNotes._data h (meas_id item.2)) <$> ms) /\
  (Metadata.__getitem__ key (Metadata.__init__ h [] None)).1 = Raise KeyError /\
  (Metadata.__len__ (Metadata.__init__ h [] None)).1 = 0 /\
  Metadata.__init__ h ms (Some data) = Metadata.update data (Metadata.__init__ h ms None).
Proof.
  unfold Metadata.__getitem__, Metadata.__len__, ChainMap.__getitem__. cbn [fst].
  rewrite !init_layers, !chainmap_lookup_empty_cons, !chainmap_len_empty_cons.
  done.
Qed.

(** X14.  A change of the names in the bound set is seen at once.  When
    the cache holds the names of the set, as it does after any read, and
    a measurement is then stored under a name the set did not have, or a
    name of the set is deleted, the next read answers from the general
    store and the annotation stores of the measurements now in the set. *)
Theorem metadata_rebuild_on_change
    (is_metric : Name -> bool) self name (measurement : pyobject)
    (ms' : list (Name * Measurement)) key :
  Metadata._cached_prefixes self =
    list_to_set (MeasurementSet.__iter__ (Metadata._meas_set self)) ->
  (MeasurementSet.__contains__ name (Metadata._meas_set self) = false /\
   MeasurementSet.__setitem__ is_metric name measurement (Metadata._meas_set self)
     = Ok ms') \/
  (NoDup (MeasurementSet.__iter__ (Metadata._meas_set self)) /\
   MeasurementSet.__delitem__ name (Metadata._meas_set self) = Ok ms') ->
  (Metadata.__getitem__ key (Metadata.with_meas_set ms' self)).1 =
    ChainMap.__getitem__ (Metadata.layers (Metadata.with_meas_set ms' self)) key /\
  (Metadata.__contains__ key (Metadata.with_meas_set ms' self)).1 =
    ChainMap.__contains__ (Metadata.layers (Metadata.with_meas_set ms' self)) key /\
  (Metadata.__len__ (Metadata.with_meas_set ms' self)).1 =
    ChainMap.__len__ (Metadata.layers (Metadata.with_meas_set ms' self)).
Proof.
  intros Hcache Hchange.
  assert (Metadata.maps (Metadata._refresh_chainmap (Metadata.with_meas_set ms' self))
          = Metadata.layers (Metadata.with_meas_set ms' self)) as Hmaps.
  { apply refresh_rebuilds. cbn [Metadata.with_meas_set Metadata._cached_prefixes
      Metadata._meas_set]. rewrite Hcache. unfold MeasurementSet.__iter__ in *.
    intros Heq.
    assert (name ∈ Dict.keys (Metadata._meas_set self) <-> name ∈ Dict.keys ms') as Hiff.
    { by rewrite <- !(elem_of_list_to_set (C:=gset string)), Heq. }
    destruct Hchange as [[Hnin Hset]|[Hnd Hdel]].
    - apply measurement_set_contains_false in Hnin.
      revert Hset. unfold MeasurementSet.__setitem__.
      destruct (is_metric name); simpl; [|done].
      destruct measurement as [m|]; [|done].
      destruct (decide _); [done|]. intros [= <-].
      rewrite dict_keys_set_absent in Hiff by done.
      apply dict_get_None_keys in Hnin. apply Hnin, Hiff.
      apply elem_of_app. right. left.
    - revert Hdel. unfold MeasurementSet.__delitem__.
      destruct (Dict.get name _) as [m|] eqn:E; [|done]. intros [= <-].
      destruct (dict_keys_del name (Metadata._meas_set self) Hnd) as [_ Hkeys].
      assert (name ∈ Dict.keys (Metadata._meas_set self)) as Hin.
      { destruct (decide (name ∈ Dict.keys (Metadata._meas_set self))) as [|Hn];
          [done|]. apply dict_get_None_keys in Hn. congruence. }
      apply Hiff, Hkeys in Hin. by destruct Hin. }
  unfold Metadata.__getitem__, Metadata.__contains__, Metadata.__len__. cbn [fst].
  by rewrite Hmaps.
Qed.

(** What [__eq__] answers, in terms of the views of the two cores. *)
Lemma eq_spec self other :
  ((Metadata.__eq__ self other).1.1 = Ok true \/
   (Metadata.__eq__ self other).1.1 = Ok false) /\
  ((Metadata.__eq__ self other).1.1 = Ok true <->
   forall key,
     ChainMap.lookup (Metadata.maps (Metadata._refresh_chainmap self)) key =
     ChainMap.lookup (Metadata.maps (Metadata._refresh_chainmap other)) key).
Proof.
  unfold Metadata.__eq__, Metadata.__len__, Metadata.items. cbn [fst].
  rewrite (refresh_idem other).
  set (A := Metadata._refresh_chainmap self).
  set (B := Metadata._refresh_chainmap other).
  destruct (eq_loop_spec A (ChainMap.items (Metadata.maps B)) (refresh_idem self))
    as (_ & Hok & Hiff).
  destruct (decide (ChainMap.__len__ (Metadata.maps A) <>
                    ChainMap.__len__ (Metadata.maps B))) as [Hlen|Hlen%dec_stable].
  - cbn [fst]. split; [by right|]. split; [done|].
    intros Hall. exfalso. apply Hlen. unfold ChainMap.__len__. f_equal.
    apply set_eq. intros key. by rewrite !chainmap_keyset, Hall.
  - destruct (Metadata.eq_loop _ A) as [r A'] eqn:E. cbn [fst] in *.
    split; [done|]. rewrite Hiff. split.
    + intros Hitems.
      assert (ChainMap.keyset (Metadata.maps B) = ChainMap.keyset (Metadata.maps A))
        as Hkeys.
      { apply set_subseteq_size_eq.
        - intros key [v Hv]%chainmap_keyset. apply chainmap_keyset.
          exists v. by apply Hitems, chainmap_items.
        - unfold ChainMap.__len__ in Hlen. by rewrite Hlen. }
      intros key. destruct (ChainMap.lookup (Metadata.maps B) key) as [v|] eqn:EB.
      * by apply Hitems, chainmap_items.
      * destruct (ChainMap.lookup (Metadata.maps A) key) as [v|] eqn:EA; [|done].
        assert (key ∈ ChainMap.keyset (Metadata.maps B)) as Hin
          by (rewrite Hkeys; apply chainmap_keyset; by eexists).
        apply chainmap_keyset in Hin as [v' Hv']. congruence.
    + intros Hall key value Hin%chainmap_items. by rewrite Hall.
Qed.

Lemma eq_true_iff self other :
  (Metadata.__eq__ self other).1.1 = Ok true <->
  forall key,
    ChainMap.lookup (Metadata.maps (Metadata._refresh_chainmap self)) key =
    ChainMap.lookup (Metadata.maps (Metadata._refresh_chainmap other)) key.
Proof. apply eq_spec. Qed.

Lemma eq_sym_true self other :
  (Metadata.__eq__ self other).1.1 = Ok true ->
  (Metadata.__eq__ other self).1.1 = Ok true.
Proof. rewrite !eq_true_iff. intros Hall key. by rewrite Hall. Qed.

(** X15.  For values whose equality is symmetric and transitive, [==]
    on cores is symmetric and transitive: the answer does not depend on
    the side a core is on, and two cores equal to a third are equal.  [!=]
    answers the opposite of [==]. *)
Theorem metadata_eq_equivalence self other third :
  (Metadata.__eq__ self other).1.1 = (Metadata.__eq__ other self).1.1 /\
  ((Metadata.__eq__ self other).1.1 = Ok true ->
   (Metadata.__eq__ other third).1.1 = Ok true ->
   (Metadata.__eq__ self third).1.1 = Ok true) /\
  ((Metadata.__ne__ self other).1.1 = Ok true <->
   (Metadata.__eq__ self other).1.1 = Ok false) /\
  ((Metadata.__ne__ self other).1.1 = Ok false <->
   (Metadata.__eq__ self other).1.1 = Ok true).
Proof.
  split; [|split; [|split]].
  - destruct (proj1 (eq_spec self other)) as [H1|H1],
             (proj1 (eq_spec other self)) as [H3|H3]; rewrite H1, H3; try done.
    + apply eq_sym_true in H1. congruence.
    + apply eq_sym_true in H3. congruence.
  - rewrite !eq_true_iff. intros H1 H2 key. by rewrite H1, H2.
  - unfold Metadata.__ne__.
    destruct (Metadata.__eq__ self other) as [[r s1] s2]. cbn [fst].
    destruct r as [[|]|]; split; intros; simplify_eq; done.
  - unfold Metadata.__ne__.
    destruct (Metadata.__eq__ self other) as [[r s1] s2]. cbn [fst].
    destruct r as [[|]|]; split; intros; simplify_eq; done.
Qed.
End metadata_views.

(** ** [Configuration] *)

Section configuration.
Import Dispatch.
Variable getenv : string -> option string.
Variable abspath : string -> string.
Variable isdir : string -> bool.

Lemma py_or_is_Some x y : is_Some y -> is_Some (py_or x y).
Proof. unfold py_or, truthy. destruct x as [s|]; [|done]. by destruct (negb _). Qed.

Lemma find_none_forall (paths : list string) :
  List.find (fun path => negb (isdir path)) paths = None <->
  forall path, path ∈ paths -> isdir path = true.
Proof.
  induction paths as [|p paths IH]; simpl.
  - split; [|done]. intros _ path Hin. by apply elem_of_nil in Hin.
  - destruct (isdir p) eqn:E; simpl.
    + rewrite IH. split.
      * intros Hall path [->|Hin]%elem_of_cons; [done|]. by apply Hall.
      * intros Hall path Hin. apply Hall. by right.
    + split; [done|]. intros Hall. specialize (Hall p ltac:(left)). congruence.
Qed.

Lemma env_name_invalid_false env :
  Configuration.env_name_invalid env = false <-> env = None \/ env = Some "jenkins".
Proof.
  unfold Configuration.env_name_invalid, Configuration.allowed_env.
  destruct env as [name|]; [|by split; [left|]].
  rewrite negb_false_iff, bool_decide_eq_true, list_elem_of_singleton. split.
  - intros ->. by right.
  - by intros [|[= ->]].
Qed.

Lemma lsstsw_missing_false ignore path :
  Configuration.lsstsw_missing isdir ignore path = Returns false <->
  ignore = true \/ exists p, path = Some p /\ isdir p = true.
Proof.
  unfold Configuration.lsstsw_missing, Configuration.isdir_opt.
  destruct ignore; cbn [negb]; [by split; [left|]|].
  destruct path as [p|].
  - destruct (isdir p) eqn:E; cbn [negb]; split; try done.
    + intros _. right. by exists p.
    + intros [|(p' & [= <-] & ?)]; congruence.
  - split; [done|]. by intros [|(p' & ? & ?)].
Qed.

Lemma credential_check_false test (x : option string) :
  negb test && bool_decide (x = None) = false <-> test = true \/ is_Some x.
Proof.
  destruct test; cbn [negb andb]; [by split; [left|]|].
  rewrite bool_decide_eq_false, <- not_eq_None_Some. split; [by right|].
  by intros [|].
Qed.

(** What makes [__init__] return, and what it returns then. *)
Lemma init_returns_iff args config :
  Configuration.__init__ getenv abspath isdir args = Returns config <->
  Configuration.env_name_invalid (Configuration.resolve_env_name getenv args) = false /\
  Configuration.lsstsw_missing isdir (Namespace.ignore_lsstsw args)
    (Configuration.resolve_lsstsw getenv abspath args) = Returns false /\
  List.find (fun path => negb (isdir path))
    (Configuration.resolve_extra_package_paths abspath args) = None /\
  negb (Namespace.test args)
    && bool_decide (Configuration.resolve_api_user getenv args = None) = false /\
  negb (Namespace.test args)
    && bool_decide (Configuration.resolve_api_password getenv args = None) = false /\
  config = Configuration.assemble getenv abspath args.
Proof.
  unfold Configuration.__init__.
  destruct (Configuration.env_name_invalid _); [by split; [|intros (?&_)]|].
  destruct (Configuration.lsstsw_missing _ _ _) as [[|]|];
    [by split; [|intros (_&?&_)]| |by split; [|intros (_&?&_)]].
  destruct (find _ _); [by split; [|intros (_&_&?&_)]|].
  destruct (negb _ && bool_decide (Configuration.resolve_api_user _ _ = None));
    [by split; [|intros (_&_&_&?&_)]|].
  destruct (negb _ && bool_decide (Configuration.resolve_api_password _ _ = None));
    [by split; [|intros (_&_&_&_&?&_)]|].
  split; [by intros [= <-] | by intros (_&_&_&_&_&->)].
Qed.

(** X16.  A configuration that was constructed is complete: the
    environment name is absent or [jenkins]; unless lsstsw is ignored, the
    lsstsw path is an existing directory; every extra package path is an
    existing directory; there is an API URL; and outside test mode there
    are a user and a password.  The other settings are those of the
    command line. *)
Theorem configuration_validated args config :
  Configuration.__init__ getenv abspath isdir args = Returns config ->
  (Configuration.env_name config = None \/
   Configuration.env_name config = Some "jenkins") /\
  (Configuration.ignore_lsstsw config = false ->
   exists path, Configuration.lsstsw config = Some path /\ isdir path = true) /\
  (forall path, path ∈ Configuration.extra_package_paths config -> isdir path = true) /\
  is_Some (Configuration.api_url config) /\
  (Configuration.test config = false ->
   is_Some (Configuration.api_user config) /\
   is_Some (Configuration.api_password config)) /\
  Configuration.json_paths config = Namespace.json_paths args /\
  Configuration.test config = Namespace.test args /\
  Configuration.output_filepath config = Namespace.output_filepath args /\
  Configuration.show_json config = Namespace.show_json args /\
  Configuration.ignore_lsstsw config = Namespace.ignore_lsstsw args.
Proof.
  intros (Henv & Hl & Hextra & Hu & Hp & ->)%init_returns_iff.
  cbn [Configuration.assemble Configuration.env_name Configuration.ignore_lsstsw
       Configuration.lsstsw Configuration.extra_package_paths Configuration.api_url
       Configuration.test Configuration.api_user Configuration.api_password
       Configuration.json_paths Configuration.output_filepath Configuration.show_json].
  split; [by apply env_name_invalid_false|].
  split. { intros Hi. apply lsstsw_missing_false in Hl as [?|?]; [congruence|done]. }
  split; [by apply find_none_forall|].
  split. { apply py_or_is_Some. unfold Configuration.getenv_default.
           destruct (getenv _); by eexists. }
  split; [|done].
  intros Ht. apply credential_check_false in Hu as [?|?]; [congruence|].
  apply credential_check_false in Hp as [?|?]; [congruence|]. done.
Qed.

(** X17.  [__init__] returns exactly when the settings pass its checks:
    the environment name, from the command line or else from
    [$VERIFY_ENV], is absent or [jenkins]; lsstsw is ignored or its path,
    from the command line or else from [$LSSTSW], is an existing
    directory; the extra package paths are existing directories; and in
    test mode or else with a user and a password, from the command line or
    else from [$SQUASH_USER] and [$SQUASH_password]. *)
Theorem configuration_accepts args :
  (exists config, Configuration.__init__ getenv abspath isdir args = Returns config) <->
  (py_or (Namespace.env_name args) (getenv "VERIFY_ENV") = None \/
   py_or (Namespace.env_name args) (getenv "VERIFY_ENV") = Some "jenkins") /\
  (Namespace.ignore_lsstsw args = true \/
   exists p, py_or (Namespace.lsstsw args) (getenv "LSSTSW") = Some p /\
             isdir (abspath p) = true) /\
  (forall paths p, Namespace.extra_package_paths args = Some paths ->
     p ∈ paths -> isdir (abspath p) = true) /\
  (Namespace.test args = true \/
   (is_Some (py_or (Namespace.api_user args) (getenv "SQUASH_USER")) /\
    is_Some (py_or (Namespace.api_password args) (getenv "SQUASH_password")))).
Proof.
  assert (Hlsstsw :
    (Namespace.ignore_lsstsw args = true \/
     exists p, Configuration.resolve_lsstsw getenv abspath args = Some p /\ isdir p = true)
    <-> (Namespace.ignore_lsstsw args = true \/
         exists p, py_or (Namespace.lsstsw args) (getenv "LSSTSW") = Some p /\
                   isdir (abspath p) = true)).
  { unfold Configuration.resolve_lsstsw.
    destruct (py_or (Namespace.lsstsw args) _) as [p|]; split;
      (intros [?|(p' & Hp & Hd)]; [by left|]); simplify_eq; right; by eexists. }
  assert (Hextra :
    (forall path, path ∈ Configuration.resolve_extra_package_paths abspath args ->
       isdir path = true)
    <-> (forall paths p, Namespace.extra_package_paths args = Some paths ->
           p ∈ paths -> isdir (abspath p) = true)).
  { unfold Configuration.resolve_extra_package_paths.
    destruct (Namespace.extra_package_paths args) as [paths|]; split.
    - intros Hall ? p [= <-] Hin. apply Hall. apply list_elem_of_fmap. by exists p.
    - intros Hall path (p & -> & Hin)%list_elem_of_fmap. by apply (Hall paths).
    - done.
    - intros _ path Hin. by apply elem_of_nil in Hin. }
  rewrite <- Hlsstsw, <- Hextra, <- find_none_forall, <- lsstsw_missing_false,
    <- env_name_invalid_false.
  split.
  - intros [config (Henv & Hl & Hf & Hu & Hp & _)%init_returns_iff].
    split; [done|]. split; [done|]. split; [done|].
    apply credential_check_false in Hu as [?|?]; [by left|].
    apply credential_check_false in Hp as [?|?]; [by left|]. by right.
  - intros (Henv & Hl & Hf & Hcred). eexists. apply init_returns_iff.
    split; [done|]. split; [done|]. split; [done|].
    split; [|split; [|reflexivity]]; apply credential_check_false;
      destruct Hcred as [?|[? ?]]; auto.
Qed.

(** X18.  When the environment name passes, lsstsw is not ignored and no
    lsstsw path is given, neither on the command line nor in [$LSSTSW],
    the constructor fails in [os.path.isdir] with a type error, not with
    the [RuntimeError] of a missing directory.  An environment name other
    than [jenkins] is a [RuntimeError], whatever the other settings. *)
Theorem configuration_rejects args :
  (forall name, py_or (Namespace.env_name args) (getenv "VERIFY_ENV") = Some name ->
     name <> "jenkins" ->
     Configuration.__init__ getenv abspath isdir args =
       Raises (RuntimeError "$VERIFY_ENV not one of ('jenkins',)")) /\
  (Configuration.env_name_invalid (py_or (Namespace.env_name args) (getenv "VERIFY_ENV"))
     = false ->
   Namespace.ignore_lsstsw args = false ->
   py_or (Namespace.lsstsw args) (getenv "LSSTSW") = None ->
   Configuration.__init__ getenv abspath isdir args = Raises (Builtin TypeError)) /\
  (forall p,
   Configuration.env_name_invalid (py_or (Namespace.env_name args) (getenv "VERIFY_ENV"))
     = false ->
   Namespace.ignore_lsstsw args = false ->
   py_or (Namespace.lsstsw args) (getenv "LSSTSW") = Some p ->
   isdir (abspath p) = false ->
   Configuration.__init__ getenv abspath isdir args =
     Raises (RuntimeError ("lsstsw directory not found at " ++ abspath p))).
Proof.
  unfold Configuration.__init__, Configuration.resolve_env_name,
    Configuration.resolve_lsstsw.
  split; [|split].
  - intros name -> Hne. unfold Configuration.env_name_invalid, Configuration.allowed_env.
    rewrite bool_decide_false; [done|]. by intros ->%list_elem_of_singleton.
  - by intros -> -> ->.
  - intros p -> -> -> Hd. unfold Configuration.lsstsw_missing, Configuration.isdir_opt.
    cbn [negb]. by rewrite Hd.
Qed.

Lemma py_or_ext x y y' : (truthy x = false -> y = y') -> py_or x y = py_or x y'.
Proof. unfold py_or. destruct (truthy x); [done|]. by intros ->. Qed.

(** X19.  The command line overrides the environment: [__init__] reads an
    environment variable only when the command line option it stands for
    is missing or empty, and it reads [VERIFY_ENV], [LSSTSW], [SQUASH_URL],
    [SQUASH_USER] and [SQUASH_password] only.  Two environments that agree
    on the variables that are read give the same result. *)
Theorem configuration_command_line_overrides (getenv' : string -> option string) args :
  (truthy (Namespace.env_name args) = false ->
   getenv "VERIFY_ENV" = getenv' "VERIFY_ENV") ->
  (truthy (Namespace.lsstsw args) = false -> getenv "LSSTSW" = getenv' "LSSTSW") ->
  (truthy (Namespace.api_url args) = false ->
   getenv "SQUASH_URL" = getenv' "SQUASH_URL") ->
  (truthy (Namespace.api_user args) = false ->
   getenv "SQUASH_USER" = getenv' "SQUASH_USER") ->
  (truthy (Namespace.api_password args) = false ->
   getenv "SQUASH_password" = getenv' "SQUASH_password") ->
  Configuration.__init__ getenv abspath isdir args =
  Configuration.__init__ getenv' abspath isdir args.
Proof.
  intros Henv Hl Hurl Hu Hp.
  unfold Configuration.__init__, Configuration.assemble,
    Configuration.resolve_env_name, Configuration.resolve_lsstsw,
    Configuration.resolve_api_url, Configuration.resolve_api_user,
    Configuration.resolve_api_password.
  rewrite (py_or_ext _ _ _ Henv), (py_or_ext _ _ _ Hl), (py_or_ext _ _ _ Hu),
    (py_or_ext _ _ _ Hp).
  rewrite (py_or_ext (Namespace.api_url args)
             (Configuration.getenv_default getenv "SQUASH_URL" Configuration.default_url)
             (Configuration.getenv_default getenv' "SQUASH_URL" Configuration.default_url));
    [done|].
  intros Ht. unfold Configuration.getenv_default. by rewrite (Hurl Ht).
Qed.
End configuration.

(** ** [MeasurementSet.__str__] *)

Lemma string_length_app (a b : string) :
  String.length (a ++ b) = String.length a + String.length b.
Proof. induction a as [|c a IH]; simpl; [done | by rewrite IH]. Qed.

Lemma string_app_inj_l (p a b : string) : p ++ a = p ++ b -> a = b.
Proof. induction p as [|c p IH]; simpl; [done|]. intros [= H']. by apply IH. Qed.

Lemma string_app_inj_r (a b t : string) : a ++ t = b ++ t -> a = b.
Proof.
  intros Heq.
  assert (String.length a = String.length b) as Hlen.
  { apply (f_equal String.length) in Heq. rewrite !string_length_app in Heq. lia. }
  revert b Heq Hlen. induction a as [|c a IH]; intros [|c' b]; simpl; try done.
  intros [= -> Heq] [= Hlen]. f_equal. by apply IH.
Qed.

Lemma format_d_inj n m :
  MeasurementSet.format_d n = MeasurementSet.format_d m -> n = m.
Proof.
  unfold MeasurementSet.format_d. intros Heq.
  apply (f_equal NilEmpty.uint_of_string) in Heq. rewrite !NilEmpty.usu in Heq.
  injection Heq as Heq. apply (f_equal Nat.of_uint) in Heq.
  by rewrite !Unsigned.of_to in Heq.
Qed.

(** X20.  The string of a set tells the number of its measurements: two
    sets have the same string exactly when they have the same length, and
    the string is [<MeasurementSet: empty>] exactly when the set is
    empty. *)
Theorem measurement_set_str (self self' : list (Name * Measurement)) :
  (MeasurementSet.__str__ self = MeasurementSet.__str__ self' <->
   MeasurementSet.__len__ self = MeasurementSet.__len__ self') /\
  (MeasurementSet.__str__ self = "<MeasurementSet: empty>" <-> self = []).
Proof.
  assert (Hinj : forall s s' : list (Name * Measurement),
            MeasurementSet.__str__ s = MeasurementSet.__str__ s' ->
            MeasurementSet.__len__ s = MeasurementSet.__len__ s').
  { intros s s'. unfold MeasurementSet.__str__.
    generalize (MeasurementSet.__len__ s) (MeasurementSet.__len__ s').
    intros n m Heq%string_app_inj_l%string_app_inj_r. revert Heq.
    destruct n as [|[|n]], m as [|[|m]]; cbn [Nat.eqb]; try done.
    - intros Heq%(f_equal String.length). rewrite string_length_app in Heq.
      simpl in Heq. lia.
    - intros Heq. assert (String.length (MeasurementSet.format_d (S (S m))) = 0) as Hl.
      { apply (f_equal String.length) in Heq. rewrite string_length_app in Heq.
        simpl in Heq. lia. }
      destruct (MeasurementSet.format_d (S (S m))); [done|]. by simpl in Hl.
    - intros Heq%(f_equal String.length). rewrite string_length_app in Heq.
      simpl in Heq. lia.
    - intros Heq. assert (String.length (MeasurementSet.format_d (S (S n))) = 0) as Hl.
      { apply (f_equal String.length) in Heq. rewrite string_length_app in Heq.
        simpl in Heq. lia. }
      destruct (MeasurementSet.format_d (S (S n))); [done|]. by simpl in Hl.
    - by intros Heq%string_app_inj_r%format_d_inj. }
  split.
  - split; [apply Hinj|]. unfold MeasurementSet.__str__. by intros ->.
  - split.
    + intros Heq. specialize (Hinj self [] Heq). by destruct self.
    + by intros ->.
Qed.

(** ** The further properties at concrete sets, cores and command lines *)

Lemma measurement_set_str_witness :
  MeasurementSet.__str__ Scenario.set_PA1 = "<MeasurementSet: 1 Measurement>" /\
  MeasurementSet.__str__
    [("validate_drp.PA1", Scenario.PA1); ("validate_drp.AM1", Scenario.AM1)]
    = "<MeasurementSet: 2 Measurements>" /\
  MeasurementSet.__str__ Scenario.set_PA1 <> "<MeasurementSet: empty>".
Proof.
  split; [reflexivity|]. split; [reflexivity|].
  intros Heq. apply (proj2 (measurement_set_str Scenario.set_PA1 [])) in Heq.
  discriminate Heq.
Defined.

Lemma metadata_contains_getitem_keys_witness :
  (Metadata.__contains__ "validate_drp.PA1.note" Scenario.collision).1 = true /\
  (Metadata.__getitem__ "missing_key" Scenario.collision).1 = Raise KeyError.
Proof.
  split.
  - apply (proj1 (metadata_contains_getitem_keys Scenario.collision
                    "validate_drp.PA1.note")).
    exists 1. reflexivity.
  - apply (proj2 (proj2 (metadata_contains_getitem_keys Scenario.collision
                           "missing_key"))).
    reflexivity.
Defined.

Lemma metadata_len_keys_items_witness :
  (Metadata.__len__ Scenario.two_layers).1 = length (Metadata.keys Scenario.two_layers).1 /\
  ("note", 3) ∈ (Metadata.items Scenario.two_layers).1.
Proof.
  split.
  - exact (proj1 (metadata_len_keys_items Scenario.two_layers)).
  - apply (proj2 (proj2 (proj2 (metadata_len_keys_items Scenario.two_layers)))).
    reflexivity.
Defined.

Lemma metadata_reads_are_pure_witness :
  (Metadata.__getitem__ "note" (Metadata.__len__ Scenario.two_layers).2).1 =
  (Metadata.__getitem__ "note" Scenario.two_layers).1.
Proof.
  apply (metadata_reads_are_pure Scenario.two_layers "note" "note"
           (Metadata.__len__ Scenario.two_layers).2).
  right. right. left.
Defined.

Lemma metadata_write_frame_witness :
  (Metadata.__getitem__ "validate_drp.PA1.note"
     (Metadata.__setitem__ "validate_drp.PA1.filter" 7 Scenario.in_annotation_store)).1 =
  (Metadata.__getitem__ "validate_drp.PA1.note" Scenario.in_annotation_store).1.
Proof.
  apply (metadata_write_frame Scenario.in_annotation_store "validate_drp.PA1.filter"
           "validate_drp.PA1.note" 7).
  - exact set_PA1_consistent.
  - discriminate.
Defined.

Lemma metadata_setitem_unrouted_witness :
  (Metadata.__getitem__ "validate_drp.AM1.note"
     (Metadata.__setitem__ "validate_drp.AM1.note" 4 Scenario.in_annotation_store)).1
  = Ok 4.
Proof.
  apply (metadata_setitem_unrouted Scenario.in_annotation_store
           "validate_drp.AM1.note" 4).
  intros prefix [= <-]. reflexivity.
Defined.

Lemma metadata_update_contains_witness :
  (Metadata.__contains__ "validate_drp.PA1.filter"
     (Metadata.update [("note", 1); ("validate_drp.PA1.filter", 2)]
        Scenario.bound_empty_PA1)).1 = true.
Proof.
  apply (metadata_update_contains [("note", 1); ("validate_drp.PA1.filter", 2)]
           Scenario.bound_empty_PA1 "validate_drp.PA1.filter").
  - intros _. reflexivity.
  - exact set_PA1_consistent.
  - right. left.
Defined.

Lemma metadata_update_unrouted_witness :
  (Metadata.__getitem__ "note"
     (Metadata.update [("note", 1); ("validate_drp.PA1.filter", 2)]
        Scenario.bound_empty_PA1)).1 = Ok 1.
Proof.
  apply (metadata_update_unrouted [("note", 1); ("validate_drp.PA1.filter", 2)]
           Scenario.bound_empty_PA1 "note" 1).
  - apply NoDup_cons. split.
    + intros Hin%list_elem_of_singleton. discriminate Hin.
    + apply NoDup_singleton.
  - left.
  - intros prefix Hp. discriminate Hp.
Defined.

Lemma metadata_setitem_delitem_witness :
  (Metadata.__delitem__ "validate_drp.PA1.note"
     (Metadata.__setitem__ "validate_drp.PA1.note" 5 Scenario.bound_empty_PA1)).1 = Ok tt /\
  (Metadata.__getitem__ "validate_drp.PA1.note"
     (Metadata.__delitem__ "validate_drp.PA1.note"
        (Metadata.__setitem__ "validate_drp.PA1.note" 5 Scenario.bound_empty_PA1)).2).1 =
  (Metadata.__getitem__ "validate_drp.PA1.note" Scenario.bound_empty_PA1).1.
Proof.
  apply (metadata_setitem_delitem Scenario.bound_empty_PA1 "validate_drp.PA1.note" 5
           "validate_drp.PA1.note").
  - intros _. reflexivity.
  - exact set_PA1_consistent.
  - reflexivity.
Defined.

(** [AM1] joins the set after a read: its annotation is read at once. *)
Lemma metadata_rebuild_on_change_witness :
  (Metadata.__getitem__ "validate_drp.PA1.note"
     (Metadata.with_meas_set
        [("validate_drp.PA1", Scenario.PA1); ("validate_drp.AM1", Scenario.AM1)]
        Scenario.bound_PA1)).1 =
  ChainMap.__getitem__
    (Metadata.layers
       (Metadata.with_meas_set
          [("validate_drp.PA1", Scenario.PA1); ("validate_drp.AM1", Scenario.AM1)]
          Scenario.bound_PA1)) "validate_drp.PA1.note".
Proof.
  apply (metadata_rebuild_on_change Name.is_metric Scenario.bound_PA1
           "validate_drp.AM1" (PyMeasurement Scenario.AM1)).
  - vm_compute. reflexivity.
  - left. split; reflexivity.
Defined.

Lemma metadata_eq_equivalence_witness :
  (Metadata.__eq__ Scenario.in_annotation_store Scenario.in_annotation_store).1.1
    = Ok true.
Proof.
  apply (proj1 (proj2 (metadata_eq_equivalence Scenario.in_annotation_store
           Scenario.in_general_store Scenario.in_annotation_store))).
  - vm_compute. reflexivity.
  - vm_compute. reflexivity.
Defined.

Lemma configuration_validated_witness :
  exists path,
    Dispatch.Configuration.lsstsw
      (Dispatch.Configuration.assemble Scenario.environment Scenario.same_path
         Scenario.args_plain) = Some path /\
    Scenario.only_lsstsw path = true.
Proof.
  apply (proj1 (proj2 (configuration_validated Scenario.environment Scenario.same_path
                         Scenario.only_lsstsw Scenario.args_plain _ eq_refl))).
  reflexivity.
Defined.

Lemma configuration_accepts_witness :
  exists config,
    Dispatch.Configuration.__init__ Scenario.environment Scenario.same_path
      Scenario.only_lsstsw Scenario.args_plain = Dispatch.Returns config.
Proof.
  apply (proj2 (configuration_accepts Scenario.environment Scenario.same_path
                  Scenario.only_lsstsw Scenario.args_plain)).
  split; [left; reflexivity|].
  split; [right; exists "/lsstsw"; split; reflexivity|].
  split; [intros paths p Hp; discriminate Hp|].
  right. split; eexists; reflexivity.
Defined.

Lemma configuration_rejects_witness :
  Dispatch.Configuration.__init__ Scenario.empty_environment Scenario.same_path
    Scenario.only_lsstsw Scenario.args_plain
  = Dispatch.Raises (Dispatch.Builtin TypeError) /\
  Dispatch.Configuration.__init__ Scenario.travis_environment Scenario.same_path
    Scenario.only_lsstsw Scenario.args_plain
  = Dispatch.Raises (Dispatch.RuntimeError "$VERIFY_ENV not one of ('jenkins',)").
Proof.
  split.
  - apply (proj1 (proj2 (configuration_rejects Scenario.empty_environment
                           Scenario.same_path Scenario.only_lsstsw Scenario.args_plain)));
      reflexivity.
  - apply (proj1 (configuration_rejects Scenario.travis_environment
                    Scenario.same_path Scenario.only_lsstsw Scenario.args_plain)
             "travis"); [reflexivity | discriminate].
Defined.

Lemma configuration_command_line_overrides_witness :
  Dispatch.Configuration.__init__ Scenario.travis_environment Scenario.same_path
    Scenario.only_lsstsw Scenario.args_full =
  Dispatch.Configuration.__init__ Scenario.empty_environment Scenario.same_path
    Scenario.only_lsstsw Scenario.args_full.
Proof.
  apply (configuration_command_line_overrides Scenario.travis_environment
           Scenario.same_path Scenario.only_lsstsw Scenario.empty_environment
           Scenario.args_full); discriminate.
Defined.
